(** * webwhatsapi.objects.message: message classification and formatting

    A shallow embedding of [src/webwhatsapi/objects/message.py].

    The module wraps raw message records (Python dictionaries handed over
    by the browser driver) into typed message objects and renders them.
    Raw records are finite maps from keys to dynamically typed values,
    Python exceptions are an explicit error type, and every constructor
    and method that may raise returns a [result].

    Text and byte strings are different objects, as in Python 3: a text
    is a [string], the characters with code 128 and above being the
    non-ASCII ones; [encode] makes a byte string, which is equal to no
    text and is formatted as [b'...']. *)

From Stdlib Require Import ZArith Lia List Ascii String.
From stdpp Require Import base option gmap strings pretty.

Local Open Scope string_scope.
Local Open Scope Z_scope.
Set Warnings "-register-all".

(** ** Python values, exceptions and results *)

(** The values a raw record can hold (the JSON fragment of Python). *)
Inductive value : Type :=
| VNone
| VBool (b : bool)
| VInt (n : Z)
| VStr (s : string)
| VList (l : list value)
| VDict (d : list (string * value)).

(** A byte string, one character per byte. *)
Definition bytes : Type := string.

(** The objects the module uses as dictionary keys and hands to
    [format]: the raw values, and the byte strings [encode] makes of
    them. *)
Inductive object : Type :=
| Val (v : value)
| Bytes (b : bytes).
Coercion Val : value >-> object.

(** The exceptions the module can raise or let through. [DecodeError]
    is the failure of [b64decode], [IOError] the failure of [open], and
    [Foreign] any exception of a collaborator outside this module. *)
Inductive exn : Type :=
| KeyError (key : object)
| TypeError
| AttributeError (attr : string)
| ValueError
| DecodeError
| IOError
| Foreign (name : string).

Inductive result (A : Type) : Type :=
| Ok (a : A)
| Raise (e : exn).
Arguments Ok {A} a.
Arguments Raise {A} e.

#[global] Instance result_ret : MRet result := fun A a => Ok a.
#[global] Instance result_bind : MBind result := fun A B f r =>
  match r with
  | Ok a => f a
  | Raise e => Raise e
  end.
#[global] Instance result_fmap : FMap result := fun A B f r =>
  match r with
  | Ok a => Ok (f a)
  | Raise e => Raise e
  end.

(** [for x in xs] with a fallible body: left to right, the first
    exception ends the loop. *)
Fixpoint for_each {A B : Type} (f : A -> result B) (xs : list A) : result (list B) :=
  match xs with
  | [] => Ok []
  | x :: xs' =>
      match f x with
      | Ok y =>
          match for_each f xs' with
          | Ok ys => Ok (y :: ys)
          | Raise e => Raise e
          end
      | Raise e => Raise e
      end
  end.

(** Truth value testing: [None], [False], zero and empty containers
    are false. *)
Definition truthy (v : value) : bool :=
  match v with
  | VNone => false
  | VBool b => b
  | VInt n => negb (Z.eqb n 0)
  | VStr s => negb (String.eqb s "")
  | VList l => match l with [] => false | _ => true end
  | VDict d => match d with [] => false | _ => true end
  end.

(** [v == False]: booleans are integers in Python, so [0 == False]. *)
Definition eq_False (v : value) : bool :=
  match v with
  | VBool b => negb b
  | VInt n => Z.eqb n 0
  | _ => false
  end.

(** [v == s] for a string literal [s]. *)
Definition eq_str (v : value) (s : string) : bool :=
  match v with
  | VStr t => String.eqb t s
  | _ => false
  end.

(** [v in [s1, s2, ...]] for a list of string literals. *)
Definition in_strs (v : value) (ss : list string) : bool :=
  existsb (eq_str v) ss.

(** [d[k]] on a raw record. *)
Definition getitem (d : gmap string value) (k : string) : result value :=
  match d !! k with
  | Some v => Ok v
  | None => Raise (KeyError (VStr k))
  end.

(** [s[0:n]] on text. *)
Definition slice_to (n : nat) (s : string) : string := substring 0 n s.

(** [s.encode("ascii", "ignore")]: the byte string of the ASCII
    characters of [s]; the others are dropped. *)
Fixpoint encode_ascii_ignore (s : string) : bytes :=
  match s with
  | EmptyString => EmptyString
  | String c s' =>
      if (nat_of_ascii c <? 128)%nat
      then String c (encode_ascii_ignore s')
      else encode_ascii_ignore s'
  end.

(** [''.join([a, b])]: both items must be text; [None] is a [TypeError]. *)
Definition join2 (a : value) (b : option string) : result string :=
  match a, b with
  | VStr x, Some y => Ok (x ++ y)
  | _, _ => Raise TypeError
  end.

(** [repr(b)] of a byte string, which is what [format] inserts for it:
    the letter b and the bytes between single quotes, or between double
    quotes when a single quote occurs in them and no double quote. The
    quote and the backslash are escaped with a backslash; tab, line feed
    and carriage return are written with the letters t, n and r after a
    backslash; any other byte outside the printable ASCII range is
    written with a backslash, the letter x and two hexadecimal digits. *)
Definition hexdigit (n : nat) : ascii :=
  match String.get n "0123456789abcdef" with
  | Some c => c
  | None => "0"%char
  end.

Definition bytes_repr_byte (quote c : ascii) : string :=
  let n := nat_of_ascii c in
  let backslash := "092"%char in
  if Ascii.eqb c quote || Ascii.eqb c backslash then String backslash (String c "")
  else if (n =? 9)%nat then String backslash "t"
  else if (n =? 10)%nat then String backslash "n"
  else if (n =? 13)%nat then String backslash "r"
  else if (n <? 32)%nat || (127 <=? n)%nat then
    String backslash
      (String "x" (String (hexdigit (n / 16)%nat) (String (hexdigit (n mod 16)%nat) "")))
  else String c "".

Definition occurs (c : ascii) (b : bytes) : bool :=
  existsb (Ascii.eqb c) (list_ascii_of_string b).

Definition bytes_repr (b : bytes) : string :=
  let quote :=
    if occurs "'" b && negb (occurs "034" b) then "034"%char else "'"%char in
  "b" ++ String quote
           (String.concat "" (bytes_repr_byte quote <$> list_ascii_of_string b)
              ++ String quote "").

(** ** Base64, as the standard library implements it

    [save_media] calls [base64.b64decode], which is
    [binascii.a2b_base64]. The decoder is lenient: characters outside
    the alphabet are skipped, the bits left over in the last group are
    dropped, and what follows a complete padding is not read. A byte
    string is a [string], one character per byte. *)
Module Base64.

Definition code (c : ascii) : Z := Z.of_N (N_of_ascii c).
Definition chr (z : Z) : ascii := ascii_of_N (Z.to_N z).

Definition alphabet : string :=
  "ABCDEFGHIJKLMNOPQRSTUVWXYZabcdefghijklmnopqrstuvwxyz0123456789+/".

Definition BASE64_PAD : ascii := "="%char.

(** [table_b2a_base64[i]] *)
Definition table_b2a (i : Z) : ascii :=
  match String.get (Z.to_nat i) alphabet with
  | Some c => c
  | None => BASE64_PAD
  end.

(** [table_a2b_base64[c]]: the value of a character of the alphabet,
    0 for the padding character, and [None] (-1 in the table) for the
    rest. *)
Definition table_a2b (c : ascii) : option Z :=
  let n := code c in
  if (65 <=? n) && (n <=? 90) then Some (n - 65)
  else if (97 <=? n) && (n <=? 122) then Some (n - 71)
  else if (48 <=? n) && (n <=? 57) then Some (n + 4)
  else if n =? 43 then Some 62
  else if n =? 47 then Some 63
  else if n =? 61 then Some 0
  else None.

(** The two middle sextets of a group of three bytes. *)
Definition sextet1 (x y : Z) : Z := Z.lor (Z.shiftl (Z.land x 3) 4) (Z.shiftr y 4).
Definition sextet2 (y z : Z) : Z := Z.lor (Z.shiftl (Z.land y 15) 2) (Z.shiftr z 6).

(** [b64encode]: three bytes become four characters of the alphabet;
    one or two bytes left at the end are padded with ["="]. *)
Fixpoint b64encode (bs : string) : string :=
  match bs with
  | EmptyString => EmptyString
  | String a EmptyString =>
      String (table_b2a (Z.shiftr (code a) 2))
        (String (table_b2a (Z.shiftl (Z.land (code a) 3) 4)) "==")
  | String a (String b EmptyString) =>
      String (table_b2a (Z.shiftr (code a) 2))
        (String (table_b2a (sextet1 (code a) (code b)))
           (String (table_b2a (Z.shiftl (Z.land (code b) 15) 2)) "="))
  | String a (String b (String c rest)) =>
      String (table_b2a (Z.shiftr (code a) 2))
        (String (table_b2a (sextet1 (code a) (code b)))
           (String (table_b2a (sextet2 (code b) (code c)))
              (String (table_b2a (Z.land (code c) 63)) (b64encode rest))))
  end.

(** [binascii_find_valid(s, slen, num)]: the [num+1]-th character of [s]
    that the table knows, the padding character included. *)
Fixpoint find_valid (s : string) (num : nat) : option ascii :=
  match s with
  | EmptyString => None
  | String c rest =>
      if (code c <=? 127) && bool_decide (is_Some (table_a2b c)) then
        match num with
        | O => Some c
        | S num' => find_valid rest num'
        end
      else find_valid rest num
  end.

Definition is_pad (o : option ascii) : bool :=
  match o with
  | Some c => Ascii.eqb c BASE64_PAD
  | None => false
  end.

(** The end of [a2b_base64]: bits left over are an incorrect padding. *)
Definition a2b_finish (leftbits : Z) : result string :=
  if leftbits =? 0 then Ok EmptyString else Raise DecodeError.

(** The loop of [a2b_base64] over the characters of [s]; the bytes it
    writes are the result, first byte first. *)
Fixpoint a2b_loop (s : string) (quad_pos leftchar leftbits : Z) : result string :=
  match s with
  | EmptyString => a2b_finish leftbits
  | String c rest =>
      let this_ch := code c in
      if (this_ch >? 127) || (this_ch =? 13) || (this_ch =? 10) || (this_ch =? 32)
      then a2b_loop rest quad_pos leftchar leftbits
      else if Ascii.eqb c BASE64_PAD then
        if (quad_pos <? 2) || ((quad_pos =? 2) && negb (is_pad (find_valid s 1)))
        then a2b_loop rest quad_pos leftchar leftbits
        else a2b_finish 0
      else
        match table_a2b c with
        | None => a2b_loop rest quad_pos leftchar leftbits
        | Some v =>
            let quad_pos := Z.land (quad_pos + 1) 3 in
            let leftchar := Z.lor (Z.shiftl leftchar 6) v in
            let leftbits := leftbits + 6 in
            if leftbits >=? 8 then
              String (chr (Z.land (Z.shiftr leftchar (leftbits - 8)) 255))
                <$> a2b_loop rest quad_pos
                      (Z.land leftchar (Z.shiftl 1 (leftbits - 8) - 1))
                      (leftbits - 8)
            else a2b_loop rest quad_pos leftchar leftbits
        end
  end.

Definition a2b_base64 (s : string) : result string := a2b_loop s 0 0 0.

Definition is_ascii_text (s : string) : bool :=
  forallb (fun c => code c <=? 127) (list_ascii_of_string s).

(** [b64decode] on text: text with a non-ASCII character cannot be
    turned into bytes, a [ValueError]. *)
Definition b64decode (s : string) : result string :=
  if is_ascii_text s then a2b_base64 s else Raise ValueError.

(** The values of a byte, for checks that run over all of them. *)
Definition byte_range : list Z := Z.of_nat <$> seq 0 256.

(** [c] is a character the loop shifts in, with value [v]: it is not
    skipped, it is not the padding, and the table maps it to [v]. *)
Definition data_char (c : ascii) (v : Z) : bool :=
  negb ((code c >? 127) || (code c =? 13) || (code c =? 10) || (code c =? 32))
  && negb (Ascii.eqb c BASE64_PAD)
  && match table_a2b c with
     | Some w => w =? v
     | None => false
     end.

End Base64.

(** The classes of the module. *)
Inductive class : Type :=
| ClsMessage
| ClsMediaMessage
| ClsMMSMessage
| ClsVCardMessage
| ClsNotificationMessage.

(** The decision algorithm in the words of the specification: ordered,
    the first match wins. *)
Definition first_match (is_media is_notification is_mms : bool) (ty : value) : class :=
  if is_media then ClsMediaMessage
  else if is_notification then ClsNotificationMessage
  else if is_mms then ClsMMSMessage
  else match ty with
       | VStr t =>
           if bool_decide (t = "vcard" \/ t = "multi_vcard")
           then ClsVCardMessage else ClsMessage
       | _ => ClsMessage
       end.

(** ** Collaborators outside the module

    The driver, [Contact], [WhatsappObject], [safe_str] and the standard
    library's [datetime] and [mimetypes] are imported by the module and
    are not part of it. They are an interface here: whatever they are,
    the module only uses the operations below. *)
Class Collaborators : Type := {
  Driver : Type;
  Contact : Type;
  datetime : Type;
  (** [WhatsappObject.__init__(js_obj, driver)]: it may raise; otherwise
      the driver is what [self.driver] holds afterwards. *)
  WhatsappObject_init : gmap string value -> Driver -> result unit;
  (** [Contact(js_obj, driver)] *)
  Contact_init : value -> Driver -> result Contact;
  (** [contact.get_safe_name()] *)
  get_safe_name : Contact -> string;
  (** [driver.get_contact_from_id(x)] *)
  get_contact_from_id : Driver -> value -> result Contact;
  (** [datetime.fromtimestamp(n)] on an integer *)
  fromtimestamp : Z -> result datetime;
  (** [str(timestamp)], which is what [format] inserts *)
  str_datetime : datetime -> string;
  (** [webwhatsapi.helper.safe_str] on text *)
  safe_str : string -> string;
  (** [mimetypes.guess_extension]: [None] for an unknown type *)
  guess_extension : string -> option string;
  (** what [format] inserts for a raw value, its [str] *)
  str_value : value -> string
}.

Section Messages.
Context `{Collaborators}.

(** [datetime.fromtimestamp(v)] on a raw value: integers and booleans
    are numbers, anything else is a [TypeError]. *)
Definition datetime_fromtimestamp (v : value) : result datetime :=
  match v with
  | VInt n => fromtimestamp n
  | VBool b => fromtimestamp (Z.b2z b)
  | _ => Raise TypeError
  end.

(** [mimetypes.guess_extension(v)] on a raw value: it calls [v.lower()],
    which only text has. *)
Definition mimetypes_guess_extension (v : value) : result (option string) :=
  match v with
  | VStr s => Ok (guess_extension s)
  | _ => Raise (AttributeError "lower")
  end.

(** ** The message classes

    An attribute that the constructor sets only on some paths is an
    [option]: [None] is the attribute being absent from the object. *)

(** [self.sender] is [False] ([None] here) or a [Contact]. *)
Record Message : Type := mkMessage {
  driver : Driver;
  sender : option Contact;
  timestamp : datetime;
  content : option string;
  safe_content : option string;
  js_obj : gmap string value
}.

Record MediaMessage : Type := mkMediaMessage {
  media_base : Message;
  media_type : value;
  size : value;
  mime : value;
  filename : string
}.

Record VCardMessage : Type := mkVCardMessage {
  vcard_base : Message;
  vcard_type : value;
  contacts : bytes
}.

Record NotificationMessage : Type := mkNotificationMessage {
  notification_base : Message;
  notification_type : value;
  subtype : bytes;
  recipients : option (list Contact)
}.

(** The class of an object. [MMSMessage] adds no attribute to
    [MediaMessage]. *)
Inductive message : Type :=
| AMessage (m : Message)
| AMediaMessage (m : MediaMessage)
| AMMSMessage (m : MediaMessage)
| AVCardMessage (m : VCardMessage)
| ANotificationMessage (m : NotificationMessage).

(** ** Constructors *)

(** [self.content] and [self.safe_content] for a truthy [content].
    The content of a record is text. A number or a dictionary cannot be
    sliced, a [TypeError]; a list could be, and is then handed to
    [safe_str], a sanitiser of text: it is taken to be refused alike. *)
Definition content_fields (c : value) : result (option string * option string) :=
  if truthy c then
    match c with
    | VStr s => Ok (Some s, Some (safe_str (slice_to 25 s) ++ "..."))
    | _ => Raise TypeError
    end
  else Ok (None, None).

Definition Message_init (js : gmap string value) (d : Driver) : result Message :=
  _ ← WhatsappObject_init js d;
  s ← getitem js "sender";
  sender ← (if eq_False s then Ok None else Some <$> Contact_init s d);
  t ← getitem js "timestamp";
  timestamp ← datetime_fromtimestamp t;
  c ← getitem js "content";
  cs ← content_fields c;
  Ok (mkMessage d sender timestamp cs.1 cs.2 js).

(** [self_id] is [id(self)], the identity of the object under
    construction. *)
Definition MediaMessage_init (js : gmap string value) (d : Driver) (self_id : Z)
  : result MediaMessage :=
  base ← Message_init js d;
  ty ← getitem (js_obj base) "type";
  sz ← getitem (js_obj base) "size";
  mi ← getitem (js_obj base) "mime";
  extension ← mimetypes_guess_extension mi;
  fname ← match js_obj base !! "__x_filehash" with
          | Some h => join2 h extension
          | None => join2 (VStr (pretty self_id)) extension
          end;
  Ok (mkMediaMessage base ty sz mi fname).

Definition MMSMessage_init (js : gmap string value) (d : Driver) (self_id : Z)
  : result MediaMessage :=
  MediaMessage_init js d self_id.

Definition VCardMessage_init (js : gmap string value) (d : Driver) : result VCardMessage :=
  base ← Message_init js d;
  ty ← getitem js "type";
  c ← getitem js "content";
  match c with
  | VStr s => Ok (mkVCardMessage base ty (encode_ascii_ignore s))
  | _ => Raise (AttributeError "encode")
  end.

(** [for x in v]: a list yields its items, text its characters and a
    dictionary its keys; the other values cannot be iterated. *)
Definition iterate (v : value) : result (list value) :=
  match v with
  | VList l => Ok l
  | VStr s => Ok ((fun c => VStr (String c EmptyString)) <$> list_ascii_of_string s)
  | VDict d => Ok ((fun kv => VStr kv.1) <$> d)
  | _ => Raise TypeError
  end.

Definition NotificationMessage_init (js : gmap string value) (d : Driver)
  : result NotificationMessage :=
  base ← Message_init js d;
  ty ← getitem js "type";
  st ← getitem js "subtype";
  st' ← match st with
        | VStr s => Ok (encode_ascii_ignore s)
        | _ => Raise (AttributeError "encode")
        end;
  r ← getitem js "recipients";
  rs ← (if truthy r
        then xs ← iterate r; Some <$> for_each (get_contact_from_id (driver base)) xs
        else Ok None);
  Ok (mkNotificationMessage base ty st' rs).

(** ** The classifier *)

Definition factory_message (js : gmap string value) (d : Driver) (self_id : Z)
  : result message :=
  is_media ← getitem js "isMedia";
  if truthy is_media then AMediaMessage <$> MediaMessage_init js d self_id else
  is_notification ← getitem js "isNotification";
  if truthy is_notification then ANotificationMessage <$> NotificationMessage_init js d else
  is_mms ← getitem js "isMMS";
  if truthy is_mms then AMMSMessage <$> MMSMessage_init js d self_id else
  ty ← getitem js "type";
  if in_strs ty ["vcard"; "multi_vcard"] then AVCardMessage <$> VCardMessage_init js d else
  AMessage <$> Message_init js d.

(** The class of a message object, [type(m)]. *)
Definition class_of (m : message) : class :=
  match m with
  | AMessage _ => ClsMessage
  | AMediaMessage _ => ClsMediaMessage
  | AMMSMessage _ => ClsMMSMessage
  | AVCardMessage _ => ClsVCardMessage
  | ANotificationMessage _ => ClsNotificationMessage
  end.

(** Calling the constructor of a class. *)
Definition construct (c : class) (js : gmap string value) (d : Driver) (self_id : Z)
  : result message :=
  match c with
  | ClsMessage => AMessage <$> Message_init js d
  | ClsMediaMessage => AMediaMessage <$> MediaMessage_init js d self_id
  | ClsMMSMessage => AMMSMessage <$> MMSMessage_init js d self_id
  | ClsVCardMessage => AVCardMessage <$> VCardMessage_init js d
  | ClsNotificationMessage => ANotificationMessage <$> NotificationMessage_init js d
  end.

(** ** Display formatting *)

(** [self.sender.get_safe_name()]: the value [False] has no such
    method. *)
Definition sender_safe_name (m : Message) : result string :=
  match sender m with
  | Some c => Ok (get_safe_name c)
  | None => Raise (AttributeError "get_safe_name")
  end.

(** [self.safe_content] *)
Definition get_safe_content (m : Message) : result string :=
  match safe_content m with
  | Some s => Ok s
  | None => Raise (AttributeError "safe_content")
  end.

(** [self.content] *)
Definition get_content (m : Message) : result string :=
  match content m with
  | Some s => Ok s
  | None => Raise (AttributeError "content")
  end.

Definition Message_repr (m : Message) : result string :=
  name ← sender_safe_name m;
  c ← get_safe_content m;
  Ok ("<Message - from " ++ safe_str name ++ " at " ++ str_datetime (timestamp m)
        ++ ": " ++ c ++ ">").

Definition MediaMessage_repr (m : MediaMessage) : result string :=
  name ← sender_safe_name (media_base m);
  Ok ("<MediaMessage - " ++ str_value (media_type m) ++ " from " ++ safe_str name
        ++ " at " ++ str_datetime (timestamp (media_base m))
        ++ " (" ++ filename m ++ ")>").

Definition MMSMessage_repr (m : MediaMessage) : result string :=
  name ← sender_safe_name (media_base m);
  Ok ("<MMSMessage - " ++ str_value (media_type m) ++ " from " ++ safe_str name
        ++ " at " ++ str_datetime (timestamp (media_base m)) ++ ">").

Definition VCardMessage_repr (m : VCardMessage) : result string :=
  name ← sender_safe_name (vcard_base m);
  Ok ("<VCardMessage - " ++ str_value (vcard_type m) ++ " from " ++ safe_str name
        ++ " at " ++ str_datetime (timestamp (vcard_base m))
        ++ " (" ++ bytes_repr (contacts m) ++ ")>").

(** The taxonomy table of [NotificationMessage.__repr__]. *)
Definition readable : gmap string (gmap string string) :=
  {[ "call_log" := {[ "miss" := "Missed Call" ]};
     "e2e_notification" := {[ "encrypt" := "Messages now Encrypted" ]};
     "gp2" := {[ "create" := "Created group";
                 "add" := "Added to group";
                 "remove" := "Removed from group";
                 "leave" := "Left the group" ]} ]}.

(** Lists and dictionaries cannot be dictionary keys. *)
Definition hashable (k : object) : bool :=
  match k with
  | Val (VList _) | Val (VDict _) => false
  | _ => true
  end.

(** [d[k]] on a dictionary with text keys and any object as [k]: an
    unhashable key is a [TypeError], a key that is not there a
    [KeyError]. Only a text is equal to a text key. *)
Definition getitem_value {A : Type} (d : gmap string A) (k : object) : result A :=
  if hashable k then
    match k with
    | Val (VStr s) =>
        match d !! s with
        | Some a => Ok a
        | None => Raise (KeyError k)
        end
    | _ => Raise (KeyError k)
    end
  else Raise TypeError.

(** A [Contact] is an object without a truth value of its own, so
    [not self.sender] holds for [False] only. The phrase is looked up
    with [self.subtype], the byte string the constructor stored. *)
Definition NotificationMessage_repr (m : NotificationMessage) : result string :=
  let sender :=
    match sender (notification_base m) with
    | None => ""
    | Some c => "from " ++ safe_str (get_safe_name c)
    end in
  inner ← getitem_value readable (notification_type m);
  phrase ← getitem_value inner (Bytes (subtype m));
  let recip :=
    match recipients m with
    | None => ""
    | Some cs => String.concat "" ((fun x => safe_str (get_safe_name x)) <$> cs)
    end in
  Ok ("<NotificationMessage - " ++ phrase ++ " " ++ recip ++ " " ++ sender
        ++ " at " ++ str_datetime (timestamp (notification_base m)) ++ ">").

(** [repr(m)] by the class of [m]. *)
Definition message_repr (m : message) : result string :=
  match m with
  | AMessage x => Message_repr x
  | AMediaMessage x => MediaMessage_repr x
  | AMMSMessage x => MMSMessage_repr x
  | AVCardMessage x => VCardMessage_repr x
  | ANotificationMessage x => NotificationMessage_repr x
  end.

(** [self.sender] of a message of any class. *)
Definition message_base (m : message) : Message :=
  match m with
  | AMessage x => x
  | AMediaMessage x => media_base x
  | AMMSMessage x => media_base x
  | AVCardMessage x => vcard_base x
  | ANotificationMessage x => notification_base x
  end.

(** ** Media persistence *)

(** The files of the file system, and the paths [open] can write. *)
Record filesystem : Type := mkFilesystem {
  files : gmap string string;
  writable : string -> bool
}.

(** [os.path.join(a, b)] on POSIX paths. *)
Definition os_path_join (a b : string) : string :=
  if String.prefix "/" b then b
  else if String.eqb a "" || String.eqb (substring (String.length a - 1) 1 a) "/"
       then a ++ b
       else a ++ "/" ++ b.

Definition write_file (fs : filesystem) (p : string) (data : string) : filesystem :=
  mkFilesystem (<[p := data]> (files fs)) (writable fs).

(** [open(p, "wb")] creates or truncates the file before anything is
    decoded; [write] then replaces its content. *)
Definition save_media (m : MediaMessage) (path : string) (fs : filesystem)
  : result unit * filesystem :=
  let p := os_path_join path (filename m) in
  if writable fs p then
    let opened := write_file fs p "" in
    match c ← get_content (media_base m); Base64.b64decode c with
    | Ok data => (Ok tt, write_file opened p data)
    | Raise e => (Raise e, opened)
    end
  else (Raise IOError, fs).

(** Reading the file at [p] back, [open(p, "rb").read()]. *)
Definition read_file (fs : filesystem) (p : string) : result string :=
  match files fs !! p with
  | Some data => Ok data
  | None => Raise IOError
  end.

(** What the reader of a saved file does to compare it with the
    message: read the file [save_media] wrote and encode its bytes. *)
Definition reencode (m : MediaMessage) (path : string) (fs : filesystem)
  : result string :=
  Base64.b64encode <$> read_file fs (os_path_join path (filename m)).

End Messages.

(** ** Message groups *)
Section Groups.
Context `{Collaborators}.

(** The chat of a group is an object of the chat module, outside this
    one; the formatter reads its [name]. *)
Variable Chat : Type.
Variable chat_name : Chat -> string.

Record MessageGroup : Type := mkMessageGroup {
  chat : Chat;
  messages : list message
}.

Definition MessageGroup_init (c : Chat) (ms : list message) : MessageGroup :=
  mkMessageGroup c ms.

Definition MessageGroup_repr (g : MessageGroup) : string :=
  let safe_chat_name := safe_str (chat_name (chat g)) in
  "<MessageGroup - " ++ pretty (List.length (messages g)) ++ " "
    ++ (if Nat.eqb (List.length (messages g)) 1 then "message" else "messages")
    ++ " in " ++ safe_chat_name ++ ">".

End Groups.

(** ** A concrete session

    One choice of collaborators and a few raw records, on which the
    constructors and the formatters can be run. *)
Module Sample.

(** A contact is its display name, read from the raw sender mapping. *)
Definition contact_of (v : value) : result string :=
  match v with
  | VDict kvs =>
      match List.find (fun kv => String.eqb kv.1 "name") kvs with
      | Some (_, VStr n) => Ok n
      | _ => Raise (KeyError (VStr "name"))
      end
  | _ => Raise TypeError
  end.

(** The driver is an address book from identifiers to display names. *)
Definition lookup_contact (book : gmap string string) (v : value) : result string :=
  match v with
  | VStr i =>
      match book !! i with
      | Some n => Ok n
      | None => Raise (Foreign "ContactNotFoundError")
      end
  | _ => Raise TypeError
  end.

Definition extension_of (mime : string) : option string :=
  if String.eqb mime "image/jpeg" then Some ".jpe"
  else if String.eqb mime "audio/ogg" then Some ".oga"
  else if String.eqb mime "application/pdf" then Some ".pdf"
  else None.

Definition str_of (v : value) : string :=
  match v with
  | VNone => "None"
  | VBool true => "True"
  | VBool false => "False"
  | VInt n => pretty n
  | VStr s => s
  | VList _ => "[...]"
  | VDict _ => "{...}"
  end.

Definition collaborators : Collaborators := {|
  Driver := gmap string string;
  Contact := string;
  datetime := Z;
  WhatsappObject_init := fun _ _ => Ok tt;
  Contact_init := fun v _ => contact_of v;
  get_safe_name := fun c => c;
  get_contact_from_id := lookup_contact;
  fromtimestamp := fun n => Ok n;
  str_datetime := fun n => pretty n;
  safe_str := encode_ascii_ignore;
  guess_extension := extension_of;
  str_value := str_of
|}.

Definition address_book : gmap string string :=
  {[ "1@c.us" := "Bob"; "2@c.us" := "Carol" ]}.

Definition book : @Driver collaborators := address_book.

Definition alice : value := VDict [("name", VStr "Alice")].

Definition flags (is_media is_notification is_mms : bool) (ty : string)
  : gmap string value :=
  {[ "isMedia" := VBool is_media;
     "isNotification" := VBool is_notification;
     "isMMS" := VBool is_mms;
     "type" := VStr ty ]}.

(** A text message from Alice. *)
Definition text_record : gmap string value :=
  <["sender" := alice]> (<["timestamp" := VInt 1500000000]>
    (<["content" := VStr "hello"]> (flags false false false "chat"))).

(** A system message: no sender. *)
Definition system_record : gmap string value :=
  <["sender" := VBool false]> (<["timestamp" := VInt 1500000000]>
    (<["content" := VStr "hi"]> (flags false false false "chat"))).

(** A message without text. *)
Definition empty_record : gmap string value :=
  <["sender" := alice]> (<["timestamp" := VInt 1500000000]>
    (<["content" := VStr ""]> (flags false false false "chat"))).

(** Thirty times the letter A. *)
Definition long_record : gmap string value :=
  <["sender" := alice]> (<["timestamp" := VInt 1500000000]>
    (<["content" := VStr "AAAAAAAAAAAAAAAAAAAAAAAAAAAAAA"]>
       (flags false false false "chat"))).

(** A picture whose payload is the bytes ["ABC"]. *)
Definition media_record (mime_type content_text : string) : gmap string value :=
  <["sender" := alice]> (<["timestamp" := VInt 1500000000]>
    (<["content" := VStr content_text]> (<["size" := VInt 3]>
       (<["mime" := VStr mime_type]> (<["__x_filehash" := VStr "k3Jd9v"]>
          (flags true false true "image")))))).

(** A group notification. *)
Definition notification_record (recipients : list value) : gmap string value :=
  <["sender" := VBool false]> (<["timestamp" := VInt 1500000000]>
    (<["content" := VStr ""]> (<["subtype" := VStr "create"]>
       (<["recipients" := VList recipients]>
          (flags false true false "gp2"))))).

#[local] Existing Instance collaborators.

(** The objects the constructors make of these records. *)
Definition message_of (js : gmap string value) (snd : option string)
    (text preview : option string) : Message :=
  mkMessage book snd 1500000000 text preview js.

Definition text_message : Message :=
  message_of text_record (Some "Alice") (Some "hello") (Some "hello...").

Definition system_message : Message :=
  message_of system_record None (Some "hi") (Some "hi...").

Definition empty_message : Message :=
  message_of empty_record (Some "Alice") None None.

Definition long_message : Message :=
  message_of long_record (Some "Alice")
    (Some "AAAAAAAAAAAAAAAAAAAAAAAAAAAAAA")
    (Some "AAAAAAAAAAAAAAAAAAAAAAAAA...").

Definition picture (content_text : string) : MediaMessage :=
  mkMediaMessage
    (message_of (media_record "image/jpeg" content_text) (Some "Alice")
       (Some content_text) (Some (substring 0 25 content_text ++ "...")))
    (VStr "image") (VInt 3) (VStr "image/jpeg") "k3Jd9v.jpe".

Definition notice (js : gmap string value) (subtype_text : string)
    (recipients : option (list string)) : NotificationMessage :=
  mkNotificationMessage (message_of js None None None)
    (VStr "gp2") subtype_text recipients.

(** A file system where everything under [/tmp/] can be written. *)
Definition disk : filesystem :=
  mkFilesystem ∅ (String.prefix "/tmp/").

(** A record with nothing but a true [isMedia]. *)
Definition bare_record : gmap string value := {[ "isMedia" := VBool true ]}.

(** A picture without a content hash, and the object of identity [i]
    made of it. *)
Definition unhashed_record : gmap string value :=
  delete "__x_filehash" (media_record "image/jpeg" "QUJD").

Definition unhashed_picture (i : Z) : MediaMessage :=
  mkMediaMessage
    (message_of unhashed_record (Some "Alice") (Some "QUJD") (Some "QUJD..."))
    (VStr "image") (VInt 3) (VStr "image/jpeg") (pretty i ++ ".jpe").

(** A picture whose content hash begins with a slash. *)
Definition rooted_record : gmap string value :=
  <["__x_filehash" := VStr "/srv/k3Jd9v"]> (media_record "image/jpeg" "QUJD").

Definition rooted_picture : MediaMessage :=
  mkMediaMessage
    (message_of rooted_record (Some "Alice") (Some "QUJD") (Some "QUJD..."))
    (VStr "image") (VInt 3) (VStr "image/jpeg") "/srv/k3Jd9v.jpe".

(** A contact card, and one whose content is a null. *)
Definition vcard_record : gmap string value :=
  <["type" := VStr "vcard"]> (<["content" := VStr "BEGIN:VCARD"]> text_record).

Definition card : VCardMessage :=
  mkVCardMessage
    (message_of vcard_record (Some "Alice") (Some "BEGIN:VCARD")
       (Some "BEGIN:VCARD..."))
    (VStr "vcard") "BEGIN:VCARD".

Definition null_card_record : gmap string value :=
  <["type" := VStr "vcard"]> (<["content" := VNone]> text_record).

(** A notification whose recipients are a null. *)
Definition quiet_record : gmap string value :=
  <["recipients" := VNone]> (notification_record []).

End Sample.

(** * Properties *)

(** ** Results *)

Lemma bind_Ok {A B : Type} (f : A -> result B) (r : result A) (b : B) :
  r ≫= f = Ok b -> exists a, r = Ok a /\ f a = Ok b.
Proof. destruct r as [a|e]; [eauto | discriminate]. Qed.

Lemma fmap_Ok {A B : Type} (f : A -> B) (r : result A) (b : B) :
  f <$> r = Ok b -> exists a, r = Ok a /\ b = f a.
Proof.
  destruct r as [a|e]; [|discriminate].
  intros [= <-]. eauto.
Qed.

Lemma getitem_Ok (d : gmap string value) (k : string) (v : value) :
  getitem d k = Ok v <-> d !! k = Some v.
Proof.
  unfold getitem. destruct (d !! k); split; congruence.
Qed.

(** Taking the binds of a successful computation apart, one at a time. *)
Ltac ok_inv H :=
  repeat match type of H with
    | (_ ≫= _) = Ok _ =>
        let a := fresh "a" in
        let Ha := fresh "Ha" in
        apply bind_Ok in H as (a & Ha & H)
    end.

(** ** Base64: decoding undoes encoding *)
Module Base64Facts.
Import Base64.

Lemma byte_range_complete x : 0 <= x < 256 -> In x byte_range.
Proof.
  intros Hx. unfold byte_range. apply in_map_iff.
  exists (Z.to_nat x). split; [lia|]. apply in_seq. lia.
Qed.

Lemma forall_byte (P : Z -> bool) :
  forallb P byte_range = true -> forall x, 0 <= x < 256 -> P x = true.
Proof.
  intros HP x Hx. rewrite forallb_forall in HP. apply HP, byte_range_complete, Hx.
Qed.

Lemma forall_byte2 (P : Z -> Z -> bool) :
  forallb (fun x => forallb (P x) byte_range) byte_range = true ->
  forall x y, 0 <= x < 256 -> 0 <= y < 256 -> P x y = true.
Proof.
  intros HP x y Hx Hy.
  apply (forall_byte (P x)); [|exact Hy].
  apply (forall_byte (fun x => forallb (P x) byte_range)); assumption.
Qed.

Lemma code_range a : 0 <= code a < 256.
Proof.
  unfold code. pose proof (N_ascii_bounded a). lia.
Qed.

Lemma chr_code a : chr (code a) = a.
Proof. unfold chr, code. rewrite N2Z.id. apply ascii_N_embedding. Qed.

Lemma a2b_loop_data c v rest qp lc lb :
  data_char c v = true ->
  a2b_loop (String c rest) qp lc lb =
    if lb + 6 >=? 8 then
      String (chr (Z.land (Z.shiftr (Z.lor (Z.shiftl lc 6) v) (lb + 6 - 8)) 255))
        <$> a2b_loop rest (Z.land (qp + 1) 3)
              (Z.land (Z.lor (Z.shiftl lc 6) v) (Z.shiftl 1 (lb + 6 - 8) - 1))
              (lb + 6 - 8)
    else a2b_loop rest (Z.land (qp + 1) 3) (Z.lor (Z.shiftl lc 6) v) (lb + 6).
Proof.
  unfold data_char. intros Hc.
  apply andb_prop in Hc as [Hc Hv]. apply andb_prop in Hc as [Hws Hpad].
  apply negb_true_iff in Hws, Hpad.
  cbn [a2b_loop]. rewrite Hws, Hpad.
  destruct (table_a2b c) as [w|]; [|discriminate].
  apply Z.eqb_eq in Hv. subst w. reflexivity.
Qed.

Lemma sextet0_data x : 0 <= x < 256 ->
  data_char (table_b2a (Z.shiftr x 2)) (Z.shiftr x 2) = true.
Proof.
  intros Hx.
  apply (forall_byte (fun x => data_char (table_b2a (Z.shiftr x 2)) (Z.shiftr x 2)));
    [vm_compute; reflexivity | exact Hx].
Qed.

Lemma sextet1_data x y : 0 <= x < 256 -> 0 <= y < 256 ->
  data_char (table_b2a (sextet1 x y)) (sextet1 x y) = true.
Proof.
  intros Hx Hy.
  apply (forall_byte2 (fun x y => data_char (table_b2a (sextet1 x y)) (sextet1 x y)));
    [vm_compute; reflexivity | exact Hx | exact Hy].
Qed.

Lemma sextet3_data z : 0 <= z < 256 ->
  data_char (table_b2a (Z.land z 63)) (Z.land z 63) = true.
Proof.
  intros Hz.
  apply (forall_byte (fun z => data_char (table_b2a (Z.land z 63)) (Z.land z 63)));
    [vm_compute; reflexivity | exact Hz].
Qed.


Lemma sextet2_data y z : 0 <= y < 256 -> 0 <= z < 256 ->
  data_char (table_b2a (sextet2 y z)) (sextet2 y z) = true.
Proof.
  intros Hy Hz.
  apply (forall_byte2 (fun y z => data_char (table_b2a (sextet2 y z)) (sextet2 y z)));
    [vm_compute; reflexivity | exact Hy | exact Hz].
Qed.

(** The bytes the loop writes and the bits it keeps, for the sextets of
    three bytes [x], [y], [z]. *)
Lemma first_byte x y : 0 <= x < 256 -> 0 <= y < 256 ->
  Z.land (Z.shiftr (Z.lor (Z.shiftl (Z.lor (Z.shiftl 0 6) (Z.shiftr x 2)) 6) (sextet1 x y)) 4) 255 = x
  /\ Z.land (Z.lor (Z.shiftl (Z.lor (Z.shiftl 0 6) (Z.shiftr x 2)) 6) (sextet1 x y))
       (Z.shiftl 1 4 - 1) = Z.shiftr y 4.
Proof.
  intros Hx Hy.
  pose proof (forall_byte2 (fun x y =>
    (Z.land (Z.shiftr (Z.lor (Z.shiftl (Z.lor (Z.shiftl 0 6) (Z.shiftr x 2)) 6) (sextet1 x y)) 4) 255 =? x)
    && (Z.land (Z.lor (Z.shiftl (Z.lor (Z.shiftl 0 6) (Z.shiftr x 2)) 6) (sextet1 x y))
          (Z.shiftl 1 4 - 1) =? Z.shiftr y 4))) as H.
  specialize (H ltac:(vm_compute; reflexivity) x y Hx Hy).
  apply andb_prop in H as [H1 H2]. split; apply Z.eqb_eq; assumption.
Qed.

Lemma second_byte y z : 0 <= y < 256 -> 0 <= z < 256 ->
  Z.land (Z.shiftr (Z.lor (Z.shiftl (Z.shiftr y 4) 6) (sextet2 y z)) 2) 255 = y
  /\ Z.land (Z.lor (Z.shiftl (Z.shiftr y 4) 6) (sextet2 y z)) (Z.shiftl 1 2 - 1)
     = Z.shiftr z 6.
Proof.
  intros Hy Hz.
  pose proof (forall_byte2 (fun y z =>
    (Z.land (Z.shiftr (Z.lor (Z.shiftl (Z.shiftr y 4) 6) (sextet2 y z)) 2) 255 =? y)
    && (Z.land (Z.lor (Z.shiftl (Z.shiftr y 4) 6) (sextet2 y z)) (Z.shiftl 1 2 - 1)
          =? Z.shiftr z 6))) as H.
  specialize (H ltac:(vm_compute; reflexivity) y z Hy Hz).
  apply andb_prop in H as [H1 H2]. split; apply Z.eqb_eq; assumption.
Qed.

Lemma third_byte z : 0 <= z < 256 ->
  Z.land (Z.shiftr (Z.lor (Z.shiftl (Z.shiftr z 6) 6) (Z.land z 63)) 0) 255 = z
  /\ Z.land (Z.lor (Z.shiftl (Z.shiftr z 6) 6) (Z.land z 63)) (Z.shiftl 1 0 - 1) = 0.
Proof.
  intros Hz.
  pose proof (forall_byte (fun z =>
    (Z.land (Z.shiftr (Z.lor (Z.shiftl (Z.shiftr z 6) 6) (Z.land z 63)) 0) 255 =? z)
    && (Z.land (Z.lor (Z.shiftl (Z.shiftr z 6) 6) (Z.land z 63)) (Z.shiftl 1 0 - 1)
          =? 0))) as H.
  specialize (H ltac:(vm_compute; reflexivity) z Hz).
  apply andb_prop in H as [H1 H2]. split; apply Z.eqb_eq; assumption.
Qed.

(** Two sextets in: one byte out, four bits kept. *)
Lemma a2b_loop_pair a b rest :
  a2b_loop
    (String (table_b2a (Z.shiftr (code a) 2))
       (String (table_b2a (sextet1 (code a) (code b))) rest)) 0 0 0
  = String a <$> a2b_loop rest 2 (Z.shiftr (code b) 4) 4.
Proof.
  pose proof (code_range a) as Ha. pose proof (code_range b) as Hb.
  rewrite (a2b_loop_data _ _ _ _ _ _ (sextet0_data _ Ha)).
  change (0 + 6 >=? 8) with false. cbv iota.
  rewrite (a2b_loop_data _ _ _ _ _ _ (sextet1_data _ _ Ha Hb)).
  change (0 + 6 + 6 >=? 8) with true. cbv iota.
  change (0 + 6 + 6 - 8) with 4.
  change (Z.land (Z.land (0 + 1) 3 + 1) 3) with 2.
  destruct (first_byte _ _ Ha Hb) as [-> ->].
  rewrite chr_code. reflexivity.
Qed.

(** The third sextet: the second byte out, two bits kept. *)
Lemma a2b_loop_third b c rest :
  a2b_loop (String (table_b2a (sextet2 (code b) (code c))) rest)
    2 (Z.shiftr (code b) 4) 4
  = String b <$> a2b_loop rest 3 (Z.shiftr (code c) 6) 2.
Proof.
  pose proof (code_range b) as Hb. pose proof (code_range c) as Hc.
  rewrite (a2b_loop_data _ _ _ _ _ _ (sextet2_data _ _ Hb Hc)).
  change (4 + 6 >=? 8) with true. cbv iota.
  change (4 + 6 - 8) with 2. change (Z.land (2 + 1) 3) with 3.
  destruct (second_byte _ _ Hb Hc) as [-> ->].
  rewrite chr_code. reflexivity.
Qed.

(** The fourth sextet: the third byte out, the group is complete. *)
Lemma a2b_loop_fourth c rest :
  a2b_loop (String (table_b2a (Z.land (code c) 63)) rest) 3 (Z.shiftr (code c) 6) 2
  = String c <$> a2b_loop rest 0 0 0.
Proof.
  pose proof (code_range c) as Hc.
  rewrite (a2b_loop_data _ _ _ _ _ _ (sextet3_data _ Hc)).
  change (2 + 6 >=? 8) with true. cbv iota.
  change (2 + 6 - 8) with 0. change (Z.land (3 + 1) 3) with 0.
  destruct (third_byte _ Hc) as [-> ->].
  rewrite chr_code. reflexivity.
Qed.

Lemma b64encode_three a b c rest :
  b64encode (String a (String b (String c rest))) =
    String (table_b2a (Z.shiftr (code a) 2))
      (String (table_b2a (sextet1 (code a) (code b)))
         (String (table_b2a (sextet2 (code b) (code c)))
            (String (table_b2a (Z.land (code c) 63)) (b64encode rest)))).
Proof. reflexivity. Qed.

(** Induction on a byte string three bytes at a time. *)
Lemma string_triple_ind (P : string -> Prop) :
  P EmptyString ->
  (forall a, P (String a EmptyString)) ->
  (forall a b, P (String a (String b EmptyString))) ->
  (forall a b c rest, P rest -> P (String a (String b (String c rest)))) ->
  forall s, P s.
Proof.
  intros H0 H1 H2 H3.
  fix IH 1. intros [|a [|b [|c rest]]];
    [exact H0 | apply H1 | apply H2 | apply H3, IH].
Qed.

Lemma a2b_loop_one a :
  a2b_loop (b64encode (String a EmptyString)) 0 0 0 = Ok (String a EmptyString).
Proof.
  pose proof (code_range a) as Ha.
  apply (forall_byte (fun x =>
    match a2b_loop (b64encode (String (chr x) EmptyString)) 0 0 0 with
    | Ok s => String.eqb s (String (chr x) EmptyString)
    | Raise _ => false
    end)) in Ha; [|vm_compute; reflexivity].
  rewrite chr_code in Ha.
  destruct (a2b_loop _ 0 0 0); [|discriminate].
  apply String.eqb_eq in Ha. congruence.
Qed.

Lemma a2b_loop_two a b :
  a2b_loop (b64encode (String a (String b EmptyString))) 0 0 0
  = Ok (String a (String b EmptyString)).
Proof.
  pose proof (code_range a) as Ha. pose proof (code_range b) as Hb.
  pose proof (forall_byte2 (fun x y =>
    match a2b_loop (b64encode (String (chr x) (String (chr y) EmptyString))) 0 0 0 with
    | Ok s => String.eqb s (String (chr x) (String (chr y) EmptyString))
    | Raise _ => false
    end)) as H.
  specialize (H ltac:(vm_compute; reflexivity) _ _ Ha Hb). cbv beta in H.
  rewrite !chr_code in H.
  destruct (a2b_loop _ 0 0 0); [|discriminate].
  apply String.eqb_eq in H. congruence.
Qed.

Theorem a2b_base64_b64encode bs : a2b_base64 (b64encode bs) = Ok bs.
Proof.
  unfold a2b_base64.
  induction bs as [|a|a b|a b c rest IH] using string_triple_ind.
  - reflexivity.
  - apply a2b_loop_one.
  - apply a2b_loop_two.
  - rewrite b64encode_three, a2b_loop_pair, a2b_loop_third, a2b_loop_fourth, IH.
    reflexivity.
Qed.

Lemma data_char_ascii c v : data_char c v = true -> (code c <=? 127) = true.
Proof.
  unfold data_char. intros Hc.
  apply andb_prop in Hc as [Hc _]. apply andb_prop in Hc as [Hc _].
  apply negb_true_iff, orb_false_elim in Hc as [Hc _].
  apply orb_false_elim in Hc as [Hc _]. apply orb_false_elim in Hc as [Hc _].
  lia.
Qed.

Lemma is_ascii_text_cons c s :
  is_ascii_text (String c s) = (code c <=? 127) && is_ascii_text s.
Proof. reflexivity. Qed.

Lemma b64encode_ascii bs : is_ascii_text (b64encode bs) = true.
Proof.
  induction bs as [|a|a b|a b c rest IH] using string_triple_ind.
  - reflexivity.
  - pose proof (code_range a) as Ha.
    apply (forall_byte (fun x => is_ascii_text (b64encode (String (chr x) EmptyString))))
      in Ha; [|vm_compute; reflexivity].
    rewrite chr_code in Ha. exact Ha.
  - pose proof (code_range a) as Ha. pose proof (code_range b) as Hb.
    pose proof (forall_byte2 (fun x y =>
      is_ascii_text (b64encode (String (chr x) (String (chr y) EmptyString))))) as H.
    specialize (H ltac:(vm_compute; reflexivity) _ _ Ha Hb). cbv beta in H.
    rewrite !chr_code in H. exact H.
  - pose proof (code_range a) as Ha. pose proof (code_range b) as Hb.
    pose proof (code_range c) as Hc.
    rewrite b64encode_three, !is_ascii_text_cons, IH.
    rewrite (data_char_ascii _ _ (sextet0_data _ Ha)).
    rewrite (data_char_ascii _ _ (sextet1_data _ _ Ha Hb)).
    rewrite (data_char_ascii _ _ (sextet2_data _ _ Hb Hc)).
    rewrite (data_char_ascii _ _ (sextet3_data _ Hc)).
    reflexivity.
Qed.

(** [b64decode(b64encode(bs)) == bs] for every byte string. *)
Theorem b64decode_b64encode bs : b64decode (b64encode bs) = Ok bs.
Proof.
  unfold b64decode. rewrite b64encode_ascii. apply a2b_base64_b64encode.
Qed.

End Base64Facts.

(** ** The constructors and the classifier *)

(** Lookups of the constructors, as lookups in the raw record. *)
Ltac getitems :=
  repeat match goal with
    | Hg : getitem _ _ = Ok _ |- _ => apply getitem_Ok in Hg
    end.

Section MessageFacts.
Context `{Collaborators}.

(** What a successful [Message.__init__] has read and stored. *)
Lemma Message_init_inv js d m :
  Message_init js d = Ok m ->
  exists s t c,
    WhatsappObject_init js d = Ok tt /\
    js !! "sender" = Some s /\
    (if eq_False s then Ok None else Some <$> Contact_init s d) = Ok (sender m) /\
    js !! "timestamp" = Some t /\
    datetime_fromtimestamp t = Ok (timestamp m) /\
    js !! "content" = Some c /\
    content_fields c = Ok (content m, safe_content m) /\
    driver m = d /\ js_obj m = js.
Proof.
  unfold Message_init. intros Hm. ok_inv Hm.
  injection Hm as <-. cbn [sender timestamp content safe_content driver js_obj].
  getitems.
  repeat match goal with u : unit |- _ => destruct u end.
  match goal with
  | Hc : content_fields _ = Ok ?p |- _ => destruct p
  end.
  do 3 eexists. repeat split; eassumption.
Qed.

(** The converse: the constructor succeeds when each of its steps does. *)
Lemma Message_init_Ok js d s t c snd ts cs :
  WhatsappObject_init js d = Ok tt ->
  js !! "sender" = Some s ->
  (if eq_False s then Ok None else Some <$> Contact_init s d) = Ok snd ->
  js !! "timestamp" = Some t ->
  datetime_fromtimestamp t = Ok ts ->
  js !! "content" = Some c ->
  content_fields c = Ok cs ->
  Message_init js d = Ok (mkMessage d snd ts cs.1 cs.2 js).
Proof.
  intros Hw Hs Hsnd Ht Hts Hc Hcs. unfold Message_init.
  apply getitem_Ok in Hs, Ht, Hc.
  rewrite Hw. cbn. rewrite Hs. cbn. rewrite Hsnd. cbn. rewrite Ht. cbn.
  rewrite Hts. cbn. rewrite Hc. cbn. rewrite Hcs. reflexivity.
Qed.

Lemma in_strs_vcard ty :
  in_strs ty ["vcard"; "multi_vcard"] =
    match ty with
    | VStr t => bool_decide (t = "vcard" \/ t = "multi_vcard")
    | _ => false
    end.
Proof.
  destruct ty as [| | |t| |]; try reflexivity.
  cbn. rewrite orb_false_r.
  destruct (String.eqb_spec t "vcard") as [->|Hv]; [reflexivity|].
  destruct (String.eqb_spec t "multi_vcard") as [->|Hm]; [reflexivity|].
  symmetry. apply bool_decide_eq_false. intros [?|?]; contradiction.
Qed.

Lemma factory_message_construct js d self_id vM vN vS ty :
  js !! "isMedia" = Some vM ->
  js !! "isNotification" = Some vN ->
  js !! "isMMS" = Some vS ->
  js !! "type" = Some ty ->
  factory_message js d self_id =
    construct (first_match (truthy vM) (truthy vN) (truthy vS) ty) js d self_id.
Proof.
  intros HM HN HS HT. apply getitem_Ok in HM, HN, HS, HT.
  unfold factory_message, first_match.
  rewrite HM. cbn [mbind result_bind]. destruct (truthy vM); [reflexivity|].
  rewrite HN. cbn [mbind result_bind]. destruct (truthy vN); [reflexivity|].
  rewrite HS. cbn [mbind result_bind]. destruct (truthy vS); [reflexivity|].
  rewrite HT. cbn [mbind result_bind]. rewrite in_strs_vcard.
  destruct ty as [| | |t| |]; try reflexivity.
  destruct (bool_decide _); reflexivity.
Qed.

Lemma construct_class c js d self_id m :
  construct c js d self_id = Ok m -> class_of m = c.
Proof.
  destruct c; cbn; intros Hm; apply fmap_Ok in Hm as (x & _ & ->); reflexivity.
Qed.


Lemma Message_init_js_obj js d m : Message_init js d = Ok m -> js_obj m = js.
Proof.
  intros Hm. destruct (Message_init_inv _ _ _ Hm) as (s & t & c & Hinv).
  apply Hinv.
Qed.

Lemma Message_init_driver js d m : Message_init js d = Ok m -> driver m = d.
Proof.
  intros Hm. destruct (Message_init_inv _ _ _ Hm) as (s & t & c & Hinv).
  apply Hinv.
Qed.

Lemma factory_message_some_class js d self_id m :
  factory_message js d self_id = Ok m -> exists c, construct c js d self_id = Ok m.
Proof.
  unfold factory_message. intros Hm.
  apply bind_Ok in Hm as (vM & _ & Hm).
  destruct (truthy vM); [exists ClsMediaMessage; exact Hm|].
  apply bind_Ok in Hm as (vN & _ & Hm).
  destruct (truthy vN); [exists ClsNotificationMessage; exact Hm|].
  apply bind_Ok in Hm as (vS & _ & Hm).
  destruct (truthy vS); [exists ClsMMSMessage; exact Hm|].
  apply bind_Ok in Hm as (ty & _ & Hm).
  destruct (in_strs ty _); [exists ClsVCardMessage | exists ClsMessage]; exact Hm.
Qed.

(** What a successful [MediaMessage.__init__] has read and stored. *)
Lemma MediaMessage_init_inv js d self_id m :
  MediaMessage_init js d self_id = Ok m ->
  exists ext,
    Message_init js d = Ok (media_base m) /\
    js !! "type" = Some (media_type m) /\
    js !! "size" = Some (size m) /\
    js !! "mime" = Some (mime m) /\
    mimetypes_guess_extension (mime m) = Ok ext /\
    match js !! "__x_filehash" with
    | Some h => join2 h ext
    | None => join2 (VStr (pretty self_id)) ext
    end = Ok (filename m).
Proof.
  unfold MediaMessage_init. intros Hm. ok_inv Hm.
  injection Hm as <-. cbn [media_base media_type size mime filename].
  match goal with
  | Hb : Message_init _ _ = Ok _ |- _ => rewrite (Message_init_js_obj _ _ _ Hb) in *
  end.
  getitems. eexists. repeat split; eassumption.
Qed.

Lemma VCardMessage_init_base js d m :
  VCardMessage_init js d = Ok m -> Message_init js d = Ok (vcard_base m).
Proof.
  unfold VCardMessage_init. intros Hm. ok_inv Hm.
  match type of Hm with match ?c with _ => _ end = _ => destruct c end;
    try discriminate.
  injection Hm as <-. assumption.
Qed.

(** What a successful [NotificationMessage.__init__] has read and
    stored. *)
Lemma NotificationMessage_init_inv js d m :
  NotificationMessage_init js d = Ok m ->
  exists st r,
    Message_init js d = Ok (notification_base m) /\
    js !! "type" = Some (notification_type m) /\
    js !! "subtype" = Some (VStr st) /\
    subtype m = encode_ascii_ignore st /\
    js !! "recipients" = Some r /\
    (if truthy r
     then xs ← iterate r; Some <$> for_each (get_contact_from_id d) xs
     else Ok None) = Ok (recipients m).
Proof.
  unfold NotificationMessage_init. intros Hm. ok_inv Hm.
  injection Hm as <-. cbn [notification_base notification_type subtype recipients].
  match goal with
  | Hb : Message_init _ _ = Ok _ |- _ => rewrite (Message_init_driver _ _ _ Hb) in *
  end.
  getitems.
  match goal with
  | Hst : match ?v with _ => _ end = Ok _ |- _ =>
      destruct v as [| | |st| |]; try discriminate; injection Hst as <-
  end.
  do 2 eexists. repeat split; eassumption.
Qed.

(** Every constructor runs [Message.__init__] on the record first. *)
Lemma construct_base c js d self_id m :
  construct c js d self_id = Ok m -> Message_init js d = Ok (message_base m).
Proof.
  destruct c; cbn [construct]; intros Hm; apply fmap_Ok in Hm as (x & Hx & ->);
    cbn [message_base].
  - exact Hx.
  - apply MediaMessage_init_inv in Hx as (? & Hx & _). exact Hx.
  - apply MediaMessage_init_inv in Hx as (? & Hx & _). exact Hx.
  - apply VCardMessage_init_base, Hx.
  - apply NotificationMessage_init_inv in Hx as (? & ? & Hx & _). exact Hx.
Qed.

Lemma Message_init_no_sender js d m :
  js !! "sender" = Some (VBool false) -> Message_init js d = Ok m -> sender m = None.
Proof.
  intros Hs Hm.
  destruct (Message_init_inv _ _ _ Hm) as (s & t & c & _ & Hs' & Hsnd & _).
  rewrite Hs in Hs'. injection Hs' as <-. cbn in Hsnd. congruence.
Qed.

Lemma sender_safe_name_no_sender m :
  sender m = None -> sender_safe_name m = Raise (AttributeError "get_safe_name").
Proof. unfold sender_safe_name. intros ->. reflexivity. Qed.

(** Outside [NotificationMessage], formatting a message whose sender is
    [False] raises. *)
Lemma message_repr_no_sender m :
  sender (message_base m) = None ->
  class_of m <> ClsNotificationMessage ->
  message_repr m = Raise (AttributeError "get_safe_name").
Proof.
  intros Hs Hc. destruct m as [x|x|x|x|x]; cbn [message_base] in Hs; cbn [message_repr].
  - unfold Message_repr. rewrite (sender_safe_name_no_sender _ Hs). reflexivity.
  - unfold MediaMessage_repr. rewrite (sender_safe_name_no_sender _ Hs). reflexivity.
  - unfold MMSMessage_repr. rewrite (sender_safe_name_no_sender _ Hs). reflexivity.
  - unfold VCardMessage_repr. rewrite (sender_safe_name_no_sender _ Hs). reflexivity.
  - contradiction Hc. reflexivity.
Qed.

End MessageFacts.

(** ** The claims of the specification *)

Section Claims.
Context `{Collaborators}.

(** C1. For every raw record that has the keys [isMedia],
    [isNotification], [isMMS] and [type], [factory_message] calls the
    constructor of exactly the class the ordered, first-match decision
    of the specification names, and an object it returns is of that
    class. In particular, with a true [isMedia] the object is a
    [MediaMessage] whatever the other flags are. *)
Theorem factory_message_first_match js d self_id vM vN vS ty :
  js !! "isMedia" = Some vM ->
  js !! "isNotification" = Some vN ->
  js !! "isMMS" = Some vS ->
  js !! "type" = Some ty ->
  factory_message js d self_id =
    construct (first_match (truthy vM) (truthy vN) (truthy vS) ty) js d self_id
  /\ (forall m, factory_message js d self_id = Ok m ->
        class_of m = first_match (truthy vM) (truthy vN) (truthy vS) ty)
  /\ (truthy vM = true ->
        forall m, factory_message js d self_id = Ok m ->
          exists x, m = AMediaMessage x).
Proof.
  intros HM HN HS HT.
  pose proof (factory_message_construct js d self_id _ _ _ _ HM HN HS HT) as Hf.
  split; [exact Hf|]. split.
  - intros m Hm. rewrite Hf in Hm. apply (construct_class _ _ _ _ _ Hm).
  - intros Hmedia m Hm. rewrite Hf in Hm. unfold first_match in Hm.
    rewrite Hmedia in Hm. cbn [construct] in Hm.
    apply fmap_Ok in Hm as (x & _ & ->). exists x. reflexivity.
Qed.

(** C2. For a raw record whose [sender] is [False], the message the
    classifier builds has [False] as its sender; formatting it raises an
    [AttributeError] for every class but [NotificationMessage], whose
    formatter alone tests the sender. *)
Theorem repr_without_sender js d self_id m :
  js !! "sender" = Some (VBool false) ->
  factory_message js d self_id = Ok m ->
  sender (message_base m) = None
  /\ (class_of m <> ClsNotificationMessage ->
        message_repr m = Raise (AttributeError "get_safe_name")).
Proof.
  intros Hs Hm.
  apply factory_message_some_class in Hm as (c & Hc).
  apply construct_base in Hc.
  pose proof (Message_init_no_sender _ _ _ Hs Hc) as Hnone.
  split; [exact Hnone|].
  intros Hcls. apply message_repr_no_sender; assumption.
Qed.


(** The taxonomy table holds the phrase under the texts ["gp2"] and
    ["create"]. *)
Lemma taxonomy_gp2_create :
  readable !! "gp2" ≫= (fun inner => inner !! "create") = Some "Created group".
Proof. vm_compute. reflexivity. Qed.

(** The types of the taxonomy table. *)
Lemma readable_keys t :
  is_Some (readable !! t) <-> In t ["call_log"; "e2e_notification"; "gp2"].
Proof.
  unfold readable. split.
  - intros [inner Hi].
    repeat (apply lookup_insert_Some in Hi as [[<- _]|[_ Hi]]; [cbn; tauto|]).
    apply lookup_singleton_Some in Hi as [<- _]. cbn. tauto.
  - cbn. intros [<-|[<-|[<-|[]]]]; vm_compute; eexists; reflexivity.
Qed.

(** What [NotificationMessage.__repr__] raises: the subtype is a byte
    string, which no key of the inner tables is equal to. *)
Lemma NotificationMessage_repr_error n :
  (hashable (notification_type n) = false ->
     NotificationMessage_repr n = Raise TypeError)
  /\ (hashable (notification_type n) = true ->
      (forall t, notification_type n = VStr t -> readable !! t = None) ->
      NotificationMessage_repr n = Raise (KeyError (notification_type n)))
  /\ (forall t, notification_type n = VStr t -> is_Some (readable !! t) ->
      NotificationMessage_repr n = Raise (KeyError (Bytes (subtype n)))).
Proof.
  unfold NotificationMessage_repr, getitem_value. split; [|split].
  - intros Hh. rewrite Hh. reflexivity.
  - intros Hh Hnot.
    destruct (notification_type n) as [| | |t| |]; try reflexivity; try discriminate.
    cbn [hashable]. rewrite (Hnot t eq_refl). reflexivity.
  - intros t Ht [inner Hi]. rewrite Ht. cbn [hashable]. rewrite Hi. reflexivity.
Qed.

(** C3. The formatter of a constructed [NotificationMessage] never
    finds its phrase: the constructor stores the subtype as a byte
    string, and the keys of the taxonomy table are texts. For a record of
    type ["gp2"] and subtype ["create"] formatting raises the [KeyError]
    of the key [b'create'] instead of giving a text with
    ["Created group"]. For every record whose type can be a dictionary
    key formatting raises a [KeyError], so a pair that the table does
    not hold does raise a lookup error. *)
Theorem NotificationMessage_repr_taxonomy js d n (ty : value) st :
  NotificationMessage_init js d = Ok n ->
  js !! "type" = Some ty ->
  js !! "subtype" = Some (VStr st) ->
  (ty = VStr "gp2" -> st = "create" ->
     NotificationMessage_repr n = Raise (KeyError (Bytes "create")))
  /\ (hashable ty = true ->
      exists k, NotificationMessage_repr n = Raise (KeyError k)).
Proof.
  intros Hn Hty Hst.
  apply NotificationMessage_init_inv in Hn as (st' & r & _ & Hty' & Hst' & Hsub & _).
  rewrite Hty in Hty'. injection Hty' as Hty'.
  rewrite Hst in Hst'. injection Hst' as <-.
  destruct (NotificationMessage_repr_error n) as (_ & Hmiss & Hhit).
  rewrite <- Hty' in Hmiss, Hhit. split.
  - intros -> ->. rewrite (Hhit "gp2" eq_refl), Hsub; [reflexivity|].
    apply readable_keys. cbn. tauto.
  - intros Hh.
    assert (Hcase : (exists t, ty = VStr t /\ is_Some (readable !! t))
                    \/ (forall t, ty = VStr t -> readable !! t = None)).
    { destruct ty as [| | |t| |]; try (right; intros t0; discriminate).
      destruct (readable !! t) as [inner|] eqn:Hi.
      - left. exists t. split; [reflexivity|]. rewrite Hi. eexists. reflexivity.
      - right. intros t0 [= <-]. exact Hi. }
    destruct Hcase as [(t & -> & Hsome)|Hnone].
    + rewrite (Hhit t eq_refl Hsome). eexists. reflexivity.
    + rewrite (Hmiss Hh Hnone). eexists. reflexivity.
Qed.

(** C4. A media record whose MIME type has no known extension cannot
    be constructed: joining the name with [None] is a [TypeError], with
    or without a content hash. *)
Theorem MediaMessage_init_unknown_mime js d self_id base ty sz mt :
  Message_init js d = Ok base ->
  js !! "type" = Some ty ->
  js !! "size" = Some sz ->
  js !! "mime" = Some (VStr mt) ->
  guess_extension mt = None ->
  MediaMessage_init js d self_id = Raise TypeError.
Proof.
  intros Hb Hty Hsz Hmi Hext. unfold MediaMessage_init.
  rewrite Hb. cbn [mbind result_bind].
  rewrite (Message_init_js_obj _ _ _ Hb).
  apply getitem_Ok in Hty, Hsz, Hmi. rewrite Hty. cbn [mbind result_bind].
  rewrite Hsz. cbn [mbind result_bind]. rewrite Hmi. cbn [mbind result_bind].
  cbn [mimetypes_guess_extension]. rewrite Hext. cbn [mbind result_bind].
  destruct (js !! "__x_filehash") as [h|]; [destruct h|]; reflexivity.
Qed.

(** C7. For a media record that carries [__x_filehash], construction
    does not depend on the identity of the object: two constructions
    from the same record give the same result, and the file name of a
    constructed message is the content hash followed by the extension of
    the record's MIME type. When the hash is a text and the MIME type
    has an extension, both constructions succeed, with the same message
    and that file name. *)
Theorem filename_deterministic js d id1 id2 h :
  js !! "__x_filehash" = Some h ->
  MediaMessage_init js d id1 = MediaMessage_init js d id2
  /\ (forall m, MediaMessage_init js d id1 = Ok m ->
        exists hash mt ext,
          h = VStr hash /\ js !! "mime" = Some (VStr mt) /\
          guess_extension mt = Some ext /\ filename m = hash ++ ext)
  /\ (forall base ty sz mt ext hash,
        Message_init js d = Ok base ->
        js !! "type" = Some ty ->
        js !! "size" = Some sz ->
        js !! "mime" = Some (VStr mt) ->
        guess_extension mt = Some ext ->
        h = VStr hash ->
        exists m,
          MediaMessage_init js d id1 = Ok m /\ MediaMessage_init js d id2 = Ok m
          /\ filename m = hash ++ ext).
Proof.
  intros Hh. split; [|split].
  - unfold MediaMessage_init.
    destruct (Message_init js d) as [base|e] eqn:Hb; [|reflexivity].
    cbn [mbind result_bind]. rewrite (Message_init_js_obj _ _ _ Hb), Hh.
    reflexivity.
  - intros m Hm. apply MediaMessage_init_inv in Hm as (ext & _ & _ & _ & Hmi & Hext & Hf).
    rewrite Hh in Hf.
    destruct (mime m) as [| | |mt| |]; try discriminate.
    injection Hext as <-.
    destruct h as [| | |hash| |]; try discriminate.
    destruct (guess_extension mt) as [e|] eqn:He; [|discriminate].
    injection Hf as <-. exists hash, mt, e. repeat split; assumption.
  - intros base ty sz mt ext hash Hb Hty Hsz Hmi Hext ->.
    exists (mkMediaMessage base ty sz (VStr mt) (hash ++ ext)).
    assert (Hinit : forall i, MediaMessage_init js d i
                      = Ok (mkMediaMessage base ty sz (VStr mt) (hash ++ ext))).
    { intros i. unfold MediaMessage_init. rewrite Hb. cbn [mbind result_bind].
      rewrite (Message_init_js_obj _ _ _ Hb).
      apply getitem_Ok in Hty, Hsz, Hmi.
      rewrite Hty. cbn [mbind result_bind]. rewrite Hsz. cbn [mbind result_bind].
      rewrite Hmi. cbn [mbind result_bind mimetypes_guess_extension].
      rewrite Hext, Hh. reflexivity. }
    split; [apply Hinit|]. split; [apply Hinit | reflexivity].
Qed.

Lemma content_fields_falsy c cs :
  truthy c = false -> content_fields c = Ok cs -> cs = (None, None).
Proof. unfold content_fields. intros ->. congruence. Qed.

Lemma content_fields_truthy c cs :
  truthy c = true -> content_fields c = Ok cs ->
  exists s, c = VStr s /\ cs = (Some s, Some (safe_str (slice_to 25 s) ++ "...")).
Proof.
  unfold content_fields. intros ->. destruct c; try discriminate.
  intros [= <-]. eexists. split; reflexivity.
Qed.

(** C9. For a raw record whose [content] is falsy, the constructed
    message has neither a [content] nor a [safe_content] attribute, and
    formatting it raises an [AttributeError]. *)
Theorem falsy_content_repr_raises js d m c :
  js !! "content" = Some c ->
  truthy c = false ->
  Message_init js d = Ok m ->
  content m = None /\ safe_content m = None
  /\ exists a, Message_repr m = Raise (AttributeError a).
Proof.
  intros Hc Hf Hm.
  destruct (Message_init_inv _ _ _ Hm) as (s & t & c' & _ & _ & _ & _ & _ & Hc' & Hcs & _).
  rewrite Hc in Hc'. injection Hc' as <-.
  apply (content_fields_falsy _ _ Hf) in Hcs. injection Hcs as Hcont Hsafe.
  split; [exact Hcont|]. split; [exact Hsafe|].
  unfold Message_repr, sender_safe_name, get_safe_content.
  destruct (sender m); cbn [mbind result_bind]; [rewrite Hsafe|]; eexists; reflexivity.
Qed.

Lemma substring_min (n : nat) (s : string) :
  substring 0 n s = substring 0 (Nat.min n (String.length s)) s.
Proof.
  revert n. induction s as [|c s IH]; intros [|n]; cbn; try reflexivity.
  f_equal. apply IH.
Qed.

Lemma length_substring_prefix (n : nat) (s : string) :
  String.length (substring 0 n s) = Nat.min n (String.length s).
Proof.
  revert n. induction s as [|c s IH]; intros [|n]; cbn; try reflexivity.
  f_equal. apply IH.
Qed.

(** C10. For a raw record with a truthy [content], the preview is the
    sanitised first [min(25, length)] characters of the content followed
    by ["..."]: the suffix is there whatever the length. *)
Theorem preview_ellipsis js d m c :
  js !! "content" = Some c ->
  truthy c = true ->
  Message_init js d = Ok m ->
  exists s,
    c = VStr s /\
    String.length (substring 0 (Nat.min 25 (String.length s)) s)
      = Nat.min 25 (String.length s) /\
    safe_content m =
      Some (safe_str (substring 0 (Nat.min 25 (String.length s)) s) ++ "...").
Proof.
  intros Hc Ht Hm.
  destruct (Message_init_inv _ _ _ Hm) as (s0 & t & c' & _ & _ & _ & _ & _ & Hc' & Hcs & _).
  rewrite Hc in Hc'. injection Hc' as <-.
  apply (content_fields_truthy _ _ Ht) in Hcs as (s & -> & Hcs).
  injection Hcs as _ Hsafe. exists s. split; [reflexivity|]. split.
  - rewrite length_substring_prefix. lia.
  - rewrite Hsafe. unfold slice_to. rewrite substring_min. reflexivity.
Qed.

(** C6. For a raw record whose [content] is thirty times the letter A,
    the preview is the first 25 characters of the content followed by
    ["..."], 28 characters in all; the sanitiser leaves this text of
    plain letters as it is. *)
Theorem preview_truncation js d m :
  js !! "content" = Some (VStr "AAAAAAAAAAAAAAAAAAAAAAAAAAAAAA") ->
  safe_str "AAAAAAAAAAAAAAAAAAAAAAAAA" = "AAAAAAAAAAAAAAAAAAAAAAAAA" ->
  Message_init js d = Ok m ->
  safe_content m = Some (substring 0 25 "AAAAAAAAAAAAAAAAAAAAAAAAAAAAAA" ++ "...")
  /\ forall p, safe_content m = Some p -> String.length p = 28%nat.
Proof.
  intros Hc Hsafe Hm.
  destruct (Message_init_inv _ _ _ Hm) as (s0 & t & c' & _ & _ & _ & _ & _ & Hc' & Hcs & _).
  rewrite Hc in Hc'. injection Hc' as <-.
  apply content_fields_truthy in Hcs as (s & [= <-] & Hcs); [|reflexivity].
  injection Hcs as _ Hp. unfold slice_to in Hp.
  change (substring 0 25 "AAAAAAAAAAAAAAAAAAAAAAAAAAAAAA")
    with "AAAAAAAAAAAAAAAAAAAAAAAAA" in *.
  rewrite Hsafe in Hp. split; [exact Hp|].
  intros p Hp'. rewrite Hp in Hp'. injection Hp' as <-. reflexivity.
Qed.


(** The list comprehension succeeds exactly when every item does, and
    then holds the results in the order of the items. *)
Lemma for_each_Forall2 {A B : Type} (f : A -> result B) xs ys :
  for_each f xs = Ok ys <-> Forall2 (fun x y => f x = Ok y) xs ys.
Proof.
  revert ys. induction xs as [|x xs IH]; intros ys; cbn [for_each].
  - split.
    + intros [= <-]. constructor.
    + intros Hys. inversion Hys. reflexivity.
  - split.
    + destruct (f x) as [y|e] eqn:Hx; [|discriminate].
      destruct (for_each f xs) as [ys'|e] eqn:Hxs; [|discriminate].
      intros [= <-]. constructor; [exact Hx | apply IH; reflexivity].
    + intros Hys. inversion Hys as [|x' y xs' ys' Hx Hxs]; subst.
      rewrite Hx. apply IH in Hxs. rewrite Hxs. reflexivity.
Qed.

(** The first item that fails ends the comprehension with its
    exception. *)
Lemma for_each_first_failure {A B : Type} (f : A -> result B) l1 x l2 ys e :
  Forall2 (fun x y => f x = Ok y) l1 ys ->
  f x = Raise e ->
  for_each f (l1 ++ x :: l2)%list = Raise e.
Proof.
  intros Hl1 Hx. induction Hl1 as [|x1 y1 l1 ys Hx1 _ IH]; cbn [for_each app].
  - rewrite Hx. reflexivity.
  - rewrite Hx1, IH. reflexivity.
Qed.

Lemma NotificationMessage_init_list js d base ty st l :
  Message_init js d = Ok base ->
  js !! "type" = Some ty ->
  js !! "subtype" = Some (VStr st) ->
  js !! "recipients" = Some (VList l) ->
  NotificationMessage_init js d =
    match l with
    | [] => Ok (mkNotificationMessage base ty (encode_ascii_ignore st) None)
    | _ =>
        match for_each (get_contact_from_id d) l with
        | Ok cs => Ok (mkNotificationMessage base ty (encode_ascii_ignore st) (Some cs))
        | Raise e => Raise e
        end
    end.
Proof.
  intros Hb Hty Hst Hr. unfold NotificationMessage_init.
  apply getitem_Ok in Hty, Hst, Hr.
  rewrite Hb. cbn [mbind result_bind]. rewrite Hty. cbn [mbind result_bind].
  rewrite Hst. cbn [mbind result_bind]. rewrite Hr. cbn [mbind result_bind].
  rewrite (Message_init_driver _ _ _ Hb).
  destruct l as [|x l]; [reflexivity|].
  cbn [truthy iterate mbind result_bind].
  destruct (for_each _ _); reflexivity.
Qed.

(** C8. For a notification record, the constructed message has a
    [recipients] attribute exactly when the raw list is not empty; the
    attribute holds what [get_contact_from_id] returns for each raw
    identifier, in order; and the exception of the first identifier
    that cannot be resolved is the exception of the constructor. *)
Theorem NotificationMessage_init_recipients js d base ty st l :
  Message_init js d = Ok base ->
  js !! "type" = Some ty ->
  js !! "subtype" = Some (VStr st) ->
  js !! "recipients" = Some (VList l) ->
  (forall cs, Forall2 (fun x c => get_contact_from_id d x = Ok c) l cs ->
     exists n, NotificationMessage_init js d = Ok n /\
               recipients n = match l with [] => None | _ => Some cs end)
  /\ (forall l1 x l2 cs e,
        l = (l1 ++ x :: l2)%list ->
        Forall2 (fun x c => get_contact_from_id d x = Ok c) l1 cs ->
        get_contact_from_id d x = Raise e ->
        NotificationMessage_init js d = Raise e)
  /\ (forall n, NotificationMessage_init js d = Ok n ->
        (is_Some (recipients n) <-> l <> [])
        /\ forall cs, recipients n = Some cs ->
             Forall2 (fun x c => get_contact_from_id d x = Ok c) l cs).
Proof.
  intros Hb Hty Hst Hr.
  pose proof (NotificationMessage_init_list _ _ _ _ _ _ Hb Hty Hst Hr) as Hinit.
  split; [|split].
  - intros cs Hcs. rewrite Hinit. apply for_each_Forall2 in Hcs.
    destruct l as [|x l]; [eexists; split; reflexivity|].
    rewrite Hcs. eexists. split; reflexivity.
  - intros l1 x l2 cs e -> Hcs Hx. rewrite Hinit.
    rewrite (for_each_first_failure _ _ _ l2 _ _ Hcs Hx).
    destruct l1; reflexivity.
  - intros n Hn. rewrite Hinit in Hn. destruct l as [|x l].
    + injection Hn as <-. cbn [recipients]. split.
      * split; [intros [cs Hcs]; discriminate | intros Hne; contradiction].
      * intros cs [=].
    + destruct (for_each _ (x :: l)) as [cs'|e] eqn:Hcs; [|discriminate].
      injection Hn as <-. cbn [recipients]. split.
      * split; [discriminate | eauto].
      * intros cs [= <-]. apply for_each_Forall2, Hcs.
Qed.

(** C5, as the code has it. For a [MediaMessage] whose content is the
    base64 encoding of a byte string, and a target file that can be
    opened for writing, [save_media] writes those bytes to the file at
    [path] joined with the file name, and encoding the file again gives
    the content back. *)
Theorem save_media_roundtrip m path fs bs :
  content (media_base m) = Some (Base64.b64encode bs) ->
  writable fs (os_path_join path (filename m)) = true ->
  (save_media m path fs).1 = Ok tt
  /\ read_file (save_media m path fs).2 (os_path_join path (filename m)) = Ok bs
  /\ reencode m path (save_media m path fs).2 = Ok (Base64.b64encode bs).
Proof.
  intros Hc Hw. unfold reencode, save_media, get_content.
  rewrite Hw, Hc. cbn [mbind result_bind].
  rewrite Base64Facts.b64decode_b64encode. cbn [fst snd].
  unfold read_file, write_file. cbn [files].
  rewrite lookup_insert_eq. repeat split; reflexivity.
Qed.

End Claims.

(** ** Further properties of the module *)

Section Extras.
Context `{Collaborators}.

(** X1. The classifier reads the flags in order and only as far as it
    needs them: a key is required only when every flag before it is
    falsy, and the first required key that is missing is the one the
    [KeyError] names. *)
Theorem factory_message_keys js d self_id :
  (js !! "isMedia" = None ->
     factory_message js d self_id = Raise (KeyError (VStr "isMedia")))
  /\ (forall vM, js !! "isMedia" = Some vM -> truthy vM = true ->
        factory_message js d self_id = AMediaMessage <$> MediaMessage_init js d self_id)
  /\ (forall vM, js !! "isMedia" = Some vM -> truthy vM = false ->
        js !! "isNotification" = None ->
        factory_message js d self_id = Raise (KeyError (VStr "isNotification")))
  /\ (forall vM vN, js !! "isMedia" = Some vM -> truthy vM = false ->
        js !! "isNotification" = Some vN -> truthy vN = true ->
        factory_message js d self_id
          = ANotificationMessage <$> NotificationMessage_init js d)
  /\ (forall vM vN, js !! "isMedia" = Some vM -> truthy vM = false ->
        js !! "isNotification" = Some vN -> truthy vN = false ->
        js !! "isMMS" = None ->
        factory_message js d self_id = Raise (KeyError (VStr "isMMS")))
  /\ (forall vM vN vS, js !! "isMedia" = Some vM -> truthy vM = false ->
        js !! "isNotification" = Some vN -> truthy vN = false ->
        js !! "isMMS" = Some vS -> truthy vS = true ->
        factory_message js d self_id = AMMSMessage <$> MMSMessage_init js d self_id)
  /\ (forall vM vN vS, js !! "isMedia" = Some vM -> truthy vM = false ->
        js !! "isNotification" = Some vN -> truthy vN = false ->
        js !! "isMMS" = Some vS -> truthy vS = false ->
        js !! "type" = None ->
        factory_message js d self_id = Raise (KeyError (VStr "type"))).
Proof.
  unfold factory_message, getitem.
  repeat split; intros;
    repeat match goal with
      | Hk : _ !! _ = _ |- _ => rewrite Hk; clear Hk; cbn [mbind result_bind]
      | Ht : truthy _ = _ |- _ => rewrite Ht; clear Ht; cbn [mbind result_bind]
      end;
    reflexivity.
Qed.

(** X2. Whatever its class, a message the classifier returns keeps the
    raw record it was built from, and the attributes [type], [size] and
    [mime] of its class are the values the record has under these
    keys. *)
Theorem factory_message_retains js d self_id m :
  factory_message js d self_id = Ok m ->
  js_obj (message_base m) = js
  /\ match m with
     | AMessage _ => True
     | AMediaMessage x | AMMSMessage x =>
         js !! "type" = Some (media_type x)
         /\ js !! "size" = Some (size x)
         /\ js !! "mime" = Some (mime x)
     | AVCardMessage x => js !! "type" = Some (vcard_type x)
     | ANotificationMessage x => js !! "type" = Some (notification_type x)
     end.
Proof.
  intros Hm. apply factory_message_some_class in Hm as (c & Hc).
  split; [apply construct_base in Hc; apply (Message_init_js_obj _ _ _ Hc)|].
  destruct c; cbn [construct] in Hc; apply fmap_Ok in Hc as (x & Hx & ->).
  - exact I.
  - apply MediaMessage_init_inv in Hx as (? & _ & ? & ? & ? & _). auto.
  - apply MediaMessage_init_inv in Hx as (? & _ & ? & ? & ? & _). auto.
  - unfold VCardMessage_init in Hx. ok_inv Hx. getitems.
    match type of Hx with
    | match ?v with _ => _ end = _ => destruct v; try discriminate
    end.
    injection Hx as <-. assumption.
  - apply NotificationMessage_init_inv in Hx as (? & ? & _ & ? & _). assumption.
Qed.

Lemma eq_False_spec s : eq_False s = true <-> s = VBool false \/ s = VInt 0.
Proof.
  destruct s as [|[]|n| | |]; cbn; split; intros Hs;
    try discriminate; try (destruct Hs; discriminate); auto.
  - apply Z.eqb_eq in Hs. subst. auto.
  - destruct Hs as [|[= ->]]; [discriminate | reflexivity].
Qed.

(** When a constructed message has no sender. *)
Lemma Message_init_sender_absent js d m s :
  js !! "sender" = Some s ->
  Message_init js d = Ok m ->
  (sender m = None <-> s = VBool false \/ s = VInt 0).
Proof.
  intros Hs Hm.
  destruct (Message_init_inv _ _ _ Hm) as (s' & t & c & _ & Hs' & Hsnd & _).
  rewrite Hs in Hs'. injection Hs' as <-.
  rewrite <- eq_False_spec.
  destruct (eq_False s).
  - injection Hsnd as <-. tauto.
  - apply fmap_Ok in Hsnd as (c0 & Hc0 & Heq). rewrite Heq. split; discriminate.
Qed.

(** What [content_fields] returns. *)
Lemma content_fields_spec c p q :
  content_fields c = Ok (p, q) ->
  (p = None <-> q = None)
  /\ (p = None <-> truthy c = false)
  /\ (forall s, p = Some s -> c = VStr s /\ s <> "").
Proof.
  intros Hcs. destruct (truthy c) eqn:Ht.
  - destruct (content_fields_truthy _ _ Ht Hcs) as (s & -> & Hpair).
    injection Hpair as -> ->.
    split; [split; discriminate|]. split; [split; discriminate|].
    intros s0 [= <-]. split; [reflexivity|].
    intros ->. discriminate.
  - apply (content_fields_falsy _ _ Ht) in Hcs. injection Hcs as -> ->.
    split; [tauto|]. split; [tauto|]. discriminate.
Qed.

Lemma Message_init_content_fields js d m c :
  js !! "content" = Some c ->
  Message_init js d = Ok m ->
  content_fields c = Ok (content m, safe_content m).
Proof.
  intros Hc Hm.
  destruct (Message_init_inv _ _ _ Hm) as (s' & t & c' & _ & _ & _ & _ & _ & Hc' & Hcs & _).
  rewrite Hc in Hc'. injection Hc' as <-. exact Hcs.
Qed.

(** X3. The sender of a constructed message is the value [False]
    exactly when the raw sender equals [False], which the integer 0
    does as well; otherwise it is the contact [Contact] made of the raw
    sender. *)
Theorem sender_marker js d m s :
  js !! "sender" = Some s ->
  Message_init js d = Ok m ->
  (sender m = None <-> s = VBool false \/ s = VInt 0)
  /\ (forall c, sender m = Some c -> Contact_init s d = Ok c).
Proof.
  intros Hs Hm. split; [exact (Message_init_sender_absent _ _ _ _ Hs Hm)|].
  intros c Hc.
  destruct (Message_init_inv _ _ _ Hm) as (s' & t & c' & _ & Hs' & Hsnd & _).
  rewrite Hs in Hs'. injection Hs' as <-.
  destruct (eq_False s).
  - rewrite Hc in Hsnd. discriminate.
  - apply fmap_Ok in Hsnd as (c0 & Hc0 & Heq). rewrite Hc in Heq.
    injection Heq as ->. exact Hc0.
Qed.

(** X4. The attributes [content] and [safe_content] of a constructed
    message are set together or not at all; they are absent exactly for
    a falsy raw content, and a content that is set is the raw text,
    which is not empty. *)
Theorem content_attributes js d m c :
  js !! "content" = Some c ->
  Message_init js d = Ok m ->
  (content m = None <-> safe_content m = None)
  /\ (content m = None <-> truthy c = false)
  /\ (forall s, content m = Some s -> c = VStr s /\ s <> "").
Proof.
  intros Hc Hm. apply content_fields_spec.
  exact (Message_init_content_fields _ _ _ _ Hc Hm).
Qed.

(** X5. A record that lacks [sender], [timestamp] or [content] is
    refused whatever its flags are: no class can be constructed from
    it. *)
Theorem required_keys js d self_id k :
  In k ["sender"; "timestamp"; "content"] ->
  js !! k = None ->
  (forall c, exists e, construct c js d self_id = Raise e)
  /\ exists e, factory_message js d self_id = Raise e.
Proof.
  intros Hk Hnone.
  assert (Hbase : forall b, Message_init js d <> Ok b).
  { intros b Hb.
    destruct (Message_init_inv _ _ _ Hb) as (s & t & c & _ & Hs & _ & Ht & _ & Hc & _).
    cbn in Hk. destruct Hk as [<-|[<-|[<-|[]]]]; congruence. }
  assert (Hall : forall c, exists e, construct c js d self_id = Raise e).
  { intros c. destruct (construct c js d self_id) as [m|e] eqn:Hc; [|eauto].
    apply construct_base in Hc. destruct (Hbase _ Hc). }
  split; [exact Hall|].
  destruct (factory_message js d self_id) as [m|e] eqn:Hf; [|eauto].
  apply factory_message_some_class in Hf as (c & Hc).
  destruct (Hall c) as (e & He). congruence.
Qed.

(** X6. Constructor and formatter together: a message constructed
    from a record can be formatted by [Message.__repr__] exactly when
    the raw sender is not equal to [False] and the raw content is
    truthy. *)
Theorem constructed_Message_repr js d m s c :
  js !! "sender" = Some s ->
  js !! "content" = Some c ->
  Message_init js d = Ok m ->
  (exists text, Message_repr m = Ok text) <->
  (s <> VBool false /\ s <> VInt 0) /\ truthy c = true.
Proof.
  intros Hs Hc Hm.
  pose proof (Message_init_sender_absent _ _ _ _ Hs Hm) as Hsnd.
  destruct (content_fields_spec _ _ _ (Message_init_content_fields _ _ _ _ Hc Hm))
    as (Hboth & Hcont & _).
  unfold Message_repr, sender_safe_name, get_safe_content. split.
  - intros (text & Hr).
    destruct (sender m) as [x|] eqn:Hx; [|discriminate].
    destruct (safe_content m) as [p|] eqn:Hp; [|discriminate].
    split.
    + split; intros ->; assert (Some x = None) by (apply Hsnd; auto); discriminate.
    + destruct (truthy c); [reflexivity|].
      assert (Some p = None) as [=]. apply Hboth, Hcont. reflexivity.
  - intros [[Hn1 Hn2] Ht].
    destruct (sender m) as [x|] eqn:Hx.
    + destruct (safe_content m) as [p|] eqn:Hp; [eexists; reflexivity|].
      assert (truthy c = false) by (apply Hcont, Hboth; reflexivity). congruence.
    + destruct Hsnd as [Hsnd _]. destruct (Hsnd eq_refl); contradiction.
Qed.

(** X7. The other formatters with a sender do not look at the content:
    a [MediaMessage], [MMSMessage] or [VCardMessage] constructed from a
    record can be formatted exactly when the raw sender is not equal to
    [False], whatever the content is. *)
Theorem constructed_repr_needs_sender js d self_id c m s :
  In c [ClsMediaMessage; ClsMMSMessage; ClsVCardMessage] ->
  js !! "sender" = Some s ->
  construct c js d self_id = Ok m ->
  (exists text, message_repr m = Ok text) <-> (s <> VBool false /\ s <> VInt 0).
Proof.
  intros Hin Hs Hc.
  pose proof (construct_class _ _ _ _ _ Hc) as Hcls.
  pose proof (construct_base _ _ _ _ _ Hc) as Hb.
  pose proof (Message_init_sender_absent _ _ _ _ Hs Hb) as Hsnd.
  split.
  - intros (text & Hr).
    destruct (sender (message_base m)) as [x|] eqn:Hx.
    + split; intros ->; assert (Some x = None) by (apply Hsnd; auto); discriminate.
    + rewrite message_repr_no_sender in Hr; [discriminate|exact Hx|].
      rewrite Hcls. cbn in Hin. destruct Hin as [<-|[<-|[<-|[]]]]; discriminate.
  - intros [Hn1 Hn2].
    destruct (sender (message_base m)) as [x|] eqn:Hx.
    + destruct m as [y|y|y|y|y]; cbn [message_base] in Hx; cbn [message_repr class_of] in *.
      * subst c. cbn in Hin. destruct Hin as [|[|[|[]]]]; discriminate.
      * unfold MediaMessage_repr, sender_safe_name. rewrite Hx. eexists. reflexivity.
      * unfold MMSMessage_repr, sender_safe_name. rewrite Hx. eexists. reflexivity.
      * unfold VCardMessage_repr, sender_safe_name. rewrite Hx. eexists. reflexivity.
      * subst c. cbn in Hin. destruct Hin as [|[|[|[]]]]; discriminate.
    + destruct Hsnd as [Hsnd _]. destruct (Hsnd eq_refl); contradiction.
Qed.


Lemma length_append (s1 s2 : string) :
  String.length (s1 ++ s2) = (String.length s1 + String.length s2)%nat.
Proof.
  induction s1 as [|c s1 IH]; [reflexivity|].
  change (S (String.length (s1 ++ s2)) = S (String.length s1 + String.length s2)).
  f_equal. exact IH.
Qed.

Lemma append_inj_l (s1 s2 e : string) : s1 ++ e = s2 ++ e -> s1 = s2.
Proof.
  revert s2. induction s1 as [|c s1 IH]; intros [|c2 s2] Heq.
  - reflexivity.
  - apply (f_equal String.length) in Heq. rewrite !length_append in Heq.
    cbn [String.length] in Heq. lia.
  - apply (f_equal String.length) in Heq. rewrite !length_append in Heq.
    cbn [String.length] in Heq. lia.
  - change (String c (s1 ++ e) = String c2 (s2 ++ e)) in Heq.
    injection Heq as -> Heq. f_equal. apply IH, Heq.
Qed.

(** X8. Given the base message and the keys [type], [size] and a text
    [mime], a [MediaMessage] can be constructed exactly when the MIME
    type has a known extension and the content hash, if the record has
    one, is text. *)
Theorem MediaMessage_init_succeeds js d self_id base ty sz mt :
  Message_init js d = Ok base ->
  js !! "type" = Some ty ->
  js !! "size" = Some sz ->
  js !! "mime" = Some (VStr mt) ->
  (exists m, MediaMessage_init js d self_id = Ok m) <->
  (exists ext, guess_extension mt = Some ext)
  /\ (forall h, js !! "__x_filehash" = Some h -> exists hash, h = VStr hash).
Proof.
  intros Hb Hty Hsz Hmi. split.
  - intros (m & Hm).
    apply MediaMessage_init_inv in Hm as (ext & _ & _ & _ & Hmi' & Hext & Hf).
    rewrite Hmi in Hmi'. injection Hmi' as Hmime. rewrite <- Hmime in Hext.
    injection Hext as <-.
    destruct (guess_extension mt) as [e|].
    + split; [eauto|]. intros h Hh. rewrite Hh in Hf.
      destruct h; try discriminate. eauto.
    + destruct (js !! "__x_filehash") as [[]|]; discriminate.
  - intros [(ext & Hext) Hhash]. unfold MediaMessage_init.
    rewrite Hb. cbn [mbind result_bind]. rewrite (Message_init_js_obj _ _ _ Hb).
    apply getitem_Ok in Hty, Hsz, Hmi.
    rewrite Hty. cbn [mbind result_bind]. rewrite Hsz. cbn [mbind result_bind].
    rewrite Hmi. cbn [mbind result_bind mimetypes_guess_extension]. rewrite Hext.
    destruct (js !! "__x_filehash") as [h|] eqn:Hh.
    + destruct (Hhash h eq_refl) as (hash & ->). eexists. reflexivity.
    + eexists. reflexivity.
Qed.

(** X9. Without a content hash the file name is the identity of the
    object followed by the extension, so two objects made from the same
    record have different file names. *)
Theorem fallback_filename_distinct js d id1 id2 m1 m2 :
  js !! "__x_filehash" = None ->
  MediaMessage_init js d id1 = Ok m1 ->
  MediaMessage_init js d id2 = Ok m2 ->
  (exists ext, filename m1 = pretty id1 ++ ext /\ filename m2 = pretty id2 ++ ext)
  /\ (id1 <> id2 -> filename m1 <> filename m2).
Proof.
  intros Hh H1 H2.
  apply MediaMessage_init_inv in H1 as (e1 & _ & _ & _ & Hmi1 & He1 & Hf1).
  apply MediaMessage_init_inv in H2 as (e2 & _ & _ & _ & Hmi2 & He2 & Hf2).
  rewrite Hh in Hf1, Hf2. rewrite Hmi1 in Hmi2. injection Hmi2 as Hmime.
  rewrite <- Hmime, He1 in He2. injection He2 as <-.
  destruct e1 as [ext|]; [|discriminate].
  injection Hf1 as Hf1. injection Hf2 as Hf2.
  split; [exists ext; auto|].
  intros Hne Heq. rewrite <- Hf1, <- Hf2 in Heq.
  apply append_inj_l, (inj pretty) in Heq. contradiction.
Qed.


(** X11. The outcomes of [save_media]. It succeeds exactly when the
    target can be opened for writing and the message has a content that
    decodes, and the file then holds the decoded bytes. When the target
    cannot be opened the file system is unchanged. Any other failure
    comes after the file was opened: the file is left empty, whatever it
    held before. *)
Theorem save_media_outcome m path fs :
  ((save_media m path fs).1 = Ok tt <->
     writable fs (os_path_join path (filename m)) = true
     /\ exists c data, content (media_base m) = Some c /\ Base64.b64decode c = Ok data)
  /\ (forall c data, content (media_base m) = Some c -> Base64.b64decode c = Ok data ->
        (save_media m path fs).1 = Ok tt ->
        read_file (save_media m path fs).2 (os_path_join path (filename m)) = Ok data)
  /\ (writable fs (os_path_join path (filename m)) = false ->
        save_media m path fs = (Raise IOError, fs))
  /\ (forall e, writable fs (os_path_join path (filename m)) = true ->
        (save_media m path fs).1 = Raise e ->
        read_file (save_media m path fs).2 (os_path_join path (filename m)) = Ok "").
Proof.
  unfold save_media, get_content, read_file.
  destruct (writable fs _) eqn:Hw; cbn [fst snd].
  - destruct (content (media_base m)) as [c|]; cbn [mbind result_bind].
    + destruct (Base64.b64decode c) as [data|e0] eqn:Hd; cbn [fst snd write_file files].
      * rewrite !lookup_insert_eq. repeat split; try discriminate; eauto.
        intros c0 data0 [= <-] Hd0 _. congruence.
      * rewrite !lookup_insert_eq. repeat split; try discriminate; try reflexivity.
        intros (_ & c0 & data0 & [= <-] & Hd0). congruence.
    + cbn [fst snd write_file files]. rewrite !lookup_insert_eq.
      repeat split; try discriminate; try reflexivity.
      intros (_ & c0 & data0 & [=] & _).
  - repeat split; try discriminate; try reflexivity.
    intros [[=] _].
Qed.

Lemma write_file_twice fs p a b : write_file (write_file fs p a) p b = write_file fs p b.
Proof. unfold write_file. cbn [files writable]. rewrite insert_insert_eq. reflexivity. Qed.

(** X12. Saving twice is saving once: the second call gives the outcome
    and the file system of the first. *)
Theorem save_media_idempotent m path fs :
  save_media m path (save_media m path fs).2 = save_media m path fs.
Proof.
  unfold save_media.
  destruct (writable fs _) eqn:Hw; cbn [snd]; [|rewrite Hw; reflexivity].
  destruct (get_content (media_base m) ≫= Base64.b64decode) as [data|e];
    cbn [snd write_file files writable]; rewrite Hw;
    rewrite !write_file_twice; reflexivity.
Qed.

Lemma prefix_slash (s : string) : String.prefix "/" (String "/" s) = true.
Proof.
  cbn. destruct (ascii_dec "/" "/"); [|contradiction].
  destruct s; reflexivity.
Qed.

(** X13. The directory is ignored for an absolute file name: when the
    content hash of the record begins with ["/"], so does the file name,
    and [save_media] writes to that path whatever directory it is
    given. *)
Theorem save_media_absolute_hash js d self_id m hash :
  js !! "__x_filehash" = Some (VStr (String "/" hash)) ->
  MediaMessage_init js d self_id = Ok m ->
  (forall path, os_path_join path (filename m) = filename m)
  /\ (forall path1 path2 fs, save_media m path1 fs = save_media m path2 fs).
Proof.
  intros Hh Hm.
  apply MediaMessage_init_inv in Hm as (e & _ & _ & _ & _ & _ & Hf).
  rewrite Hh in Hf. destruct e as [ext|]; [|discriminate]. injection Hf as Hf.
  symmetry in Hf.
  assert (Hjoin : forall path, os_path_join path (filename m) = filename m).
  { intros path. unfold os_path_join. rewrite Hf.
    change (String "/" hash ++ ext) with (String "/" (hash ++ ext)).
    rewrite prefix_slash. reflexivity. }
  split; [exact Hjoin|].
  intros path1 path2 fs. unfold save_media. rewrite !Hjoin. reflexivity.
Qed.

Lemma encode_ascii_ignore_ascii s c :
  In c (list_ascii_of_string (encode_ascii_ignore s)) -> (nat_of_ascii c < 128)%nat.
Proof.
  induction s as [|a s IH]; cbn [encode_ascii_ignore list_ascii_of_string];
    [intros []|].
  destruct (Nat.ltb_spec (nat_of_ascii a) 128) as [Ha|Ha]; [|exact IH].
  cbn [list_ascii_of_string]. intros [<-|Hc]; [exact Ha | exact (IH Hc)].
Qed.

Lemma encode_ascii_ignore_id s :
  (forall c, In c (list_ascii_of_string s) -> (nat_of_ascii c < 128)%nat) ->
  encode_ascii_ignore s = s.
Proof.
  induction s as [|a s IH]; cbn [encode_ascii_ignore list_ascii_of_string];
    [reflexivity|].
  intros Hall. destruct (Nat.ltb_spec (nat_of_ascii a) 128) as [Ha|Ha].
  - f_equal. apply IH. intros c Hc. apply Hall. right. exact Hc.
  - specialize (Hall a (or_introl eq_refl)). lia.
Qed.

Lemma encode_ascii_ignore_length s :
  (String.length (encode_ascii_ignore s) <= String.length s)%nat.
Proof.
  induction s as [|a s IH]; cbn [encode_ascii_ignore String.length]; [lia|].
  destruct (nat_of_ascii a <? 128)%nat; cbn [String.length]; lia.
Qed.

(** X14. The [contacts] of a constructed [VCardMessage] are the raw
    content without its non-ASCII characters: every character of
    [contacts] is ASCII, nothing is added, and an all-ASCII content is
    kept as it is. *)
Theorem VCardMessage_contacts js d m :
  VCardMessage_init js d = Ok m ->
  exists s,
    js !! "content" = Some (VStr s)
    /\ contacts m = encode_ascii_ignore s
    /\ (forall c, In c (list_ascii_of_string (contacts m)) -> (nat_of_ascii c < 128)%nat)
    /\ (String.length (contacts m) <= String.length s)%nat
    /\ ((forall c, In c (list_ascii_of_string s) -> (nat_of_ascii c < 128)%nat) ->
        contacts m = s).
Proof.
  unfold VCardMessage_init. intros Hm. ok_inv Hm. getitems.
  match type of Hm with
  | match ?v with _ => _ end = _ => destruct v as [| | |s| |]; try discriminate
  end.
  injection Hm as <-. cbn [contacts]. exists s.
  split; [assumption|]. split; [reflexivity|].
  split; [apply encode_ascii_ignore_ascii|].
  split; [apply encode_ascii_ignore_length | apply encode_ascii_ignore_id].
Qed.

(** X15. A vCard record needs a text content: with a content that is
    not text, such as a null, the base message is still constructed but
    the [VCardMessage] is refused with an [AttributeError]; the empty
    text is accepted. *)
Theorem VCardMessage_init_content js d base ty c :
  Message_init js d = Ok base ->
  js !! "type" = Some ty ->
  js !! "content" = Some c ->
  ((forall s, c <> VStr s) -> VCardMessage_init js d = Raise (AttributeError "encode"))
  /\ (c = VStr "" ->
        VCardMessage_init js d = Ok (mkVCardMessage base ty "")
        /\ content base = None).
Proof.
  intros Hb Hty Hc.
  assert (Hinit : VCardMessage_init js d =
            match c with
            | VStr s => Ok (mkVCardMessage base ty (encode_ascii_ignore s))
            | _ => Raise (AttributeError "encode")
            end).
  { unfold VCardMessage_init. rewrite Hb. cbn [mbind result_bind].
    apply getitem_Ok in Hty, Hc. rewrite Hty. cbn [mbind result_bind].
    rewrite Hc. reflexivity. }
  split.
  - intros Hnot. rewrite Hinit. destruct c; try reflexivity. destruct (Hnot s eq_refl).
  - intros ->. rewrite Hinit. split; [reflexivity|].
    destruct (Message_init_inv _ _ _ Hb) as (s & t & c' & _ & _ & _ & _ & _ & Hc' & Hcs & _).
    rewrite Hc in Hc'. injection Hc' as <-. cbn in Hcs. congruence.
Qed.

(** X16. No notification the classifier builds can be formatted.
    [NotificationMessage.__repr__] raises on each of them: a [TypeError]
    when the type of the record is a list or a dictionary, the
    [KeyError] of the type when the type is not one of the three types
    of the taxonomy table, and otherwise the [KeyError] of the subtype,
    which is the byte string the constructor made of the subtype of the
    record. *)
Theorem notification_repr_raises js d self_id n (ty : value) st :
  factory_message js d self_id = Ok (ANotificationMessage n) ->
  js !! "type" = Some ty ->
  js !! "subtype" = Some (VStr st) ->
  (forall text, message_repr (ANotificationMessage n) <> Ok text)
  /\ (hashable ty = false ->
        message_repr (ANotificationMessage n) = Raise TypeError)
  /\ (hashable ty = true ->
      (forall t, ty = VStr t -> ~ In t ["call_log"; "e2e_notification"; "gp2"]) ->
      message_repr (ANotificationMessage n) = Raise (KeyError ty))
  /\ (forall t, ty = VStr t -> In t ["call_log"; "e2e_notification"; "gp2"] ->
      message_repr (ANotificationMessage n)
        = Raise (KeyError (Bytes (encode_ascii_ignore st)))).
Proof.
  intros Hf Hty Hst. cbn [message_repr].
  apply factory_message_some_class in Hf as (c & Hc).
  pose proof (construct_class _ _ _ _ _ Hc) as Hcls. cbn [class_of] in Hcls. subst c.
  cbn [construct] in Hc. apply fmap_Ok in Hc as (n' & Hn & [= <-]).
  apply NotificationMessage_init_inv in Hn as (st' & r & _ & Hty' & Hst' & Hsub & _).
  rewrite Hty in Hty'. injection Hty' as Hty'.
  rewrite Hst in Hst'. injection Hst' as <-.
  destruct (NotificationMessage_repr_error n) as (Hun & Hmiss & Hhit).
  rewrite <- Hty' in Hun, Hmiss, Hhit. rewrite Hsub in Hhit.
  assert (Hin : hashable ty = true ->
                (forall t, ty = VStr t -> ~ In t ["call_log"; "e2e_notification"; "gp2"]) ->
                NotificationMessage_repr n = Raise (KeyError ty)).
  { intros Hh Hnot. apply Hmiss; [exact Hh|]. intros t Ht.
    destruct (readable !! t) as [inner|] eqn:Hi; [|reflexivity].
    destruct (Hnot t Ht). apply readable_keys. rewrite Hi. eexists. reflexivity. }
  assert (Hout : forall t, ty = VStr t -> In t ["call_log"; "e2e_notification"; "gp2"] ->
                 NotificationMessage_repr n
                   = Raise (KeyError (Bytes (encode_ascii_ignore st)))).
  { intros t Ht Hk. apply (Hhit t Ht). apply readable_keys, Hk. }
  split; [|split; [exact Hun|split; [exact Hin|exact Hout]]].
  intros text Hok. destruct (hashable ty) eqn:Hh.
  - assert (Hcase : (exists t, ty = VStr t /\ is_Some (readable !! t))
                    \/ (forall t, ty = VStr t -> readable !! t = None)).
    { destruct ty as [| | |t| |]; try (right; intros t0; discriminate).
      destruct (readable !! t) as [inner|] eqn:Hi.
      - left. exists t. split; [reflexivity|]. rewrite Hi. eexists. reflexivity.
      - right. intros t0 [= <-]. exact Hi. }
    destruct Hcase as [(t & Ht & Hsome)|Hnone].
    + rewrite (Hhit t Ht Hsome) in Hok. discriminate.
    + rewrite (Hmiss eq_refl Hnone) in Hok. discriminate.
  - rewrite (Hun eq_refl) in Hok. discriminate.
Qed.

(** X17. The [recipients] of a notification record are only resolved
    when they are truthy: for any falsy value, a null included, the
    message has no [recipients] attribute and the driver is not asked;
    a number that is not zero cannot be iterated, a [TypeError]. *)
Theorem NotificationMessage_init_no_recipients js d base ty st r :
  Message_init js d = Ok base ->
  js !! "type" = Some ty ->
  js !! "subtype" = Some (VStr st) ->
  js !! "recipients" = Some r ->
  (truthy r = false ->
     NotificationMessage_init js d
       = Ok (mkNotificationMessage base ty (encode_ascii_ignore st) None))
  /\ (forall k, r = VInt k -> k <> 0 -> NotificationMessage_init js d = Raise TypeError)
  /\ (r = VBool true -> NotificationMessage_init js d = Raise TypeError).
Proof.
  intros Hb Hty Hst Hr.
  assert (Hinit : NotificationMessage_init js d =
            rs ← (if truthy r
                  then xs ← iterate r; Some <$> for_each (get_contact_from_id d) xs
                  else Ok None);
            Ok (mkNotificationMessage base ty (encode_ascii_ignore st) rs)).
  { unfold NotificationMessage_init. apply getitem_Ok in Hty, Hst, Hr.
    rewrite Hb. cbn [mbind result_bind]. rewrite Hty. cbn [mbind result_bind].
    rewrite Hst. cbn [mbind result_bind]. rewrite Hr. cbn [mbind result_bind].
    rewrite (Message_init_driver _ _ _ Hb). reflexivity. }
  rewrite Hinit. split; [intros ->; reflexivity|]. split.
  - intros k -> Hk. cbn [truthy]. apply Z.eqb_neq in Hk. rewrite Hk. reflexivity.
  - intros ->. reflexivity.
Qed.

(** X18. A notification record needs a text subtype, and the subtype of
    a constructed message is the raw one without its non-ASCII
    characters. *)
Theorem NotificationMessage_init_subtype js d base ty v :
  Message_init js d = Ok base ->
  js !! "type" = Some ty ->
  js !! "subtype" = Some v ->
  ((forall s, v <> VStr s) ->
     NotificationMessage_init js d = Raise (AttributeError "encode"))
  /\ (forall n, NotificationMessage_init js d = Ok n ->
        exists s, v = VStr s /\ subtype n = encode_ascii_ignore s /\
          (forall c, In c (list_ascii_of_string (subtype n)) ->
             (nat_of_ascii c < 128)%nat)).
Proof.
  intros Hb Hty Hv. split.
  - intros Hnot. unfold NotificationMessage_init. apply getitem_Ok in Hty, Hv.
    rewrite Hb. cbn [mbind result_bind]. rewrite Hty. cbn [mbind result_bind].
    rewrite Hv. cbn [mbind result_bind].
    destruct v; try reflexivity. destruct (Hnot s eq_refl).
  - intros n Hn.
    apply NotificationMessage_init_inv in Hn as (s & r & _ & _ & Hs & Hsub & _).
    rewrite Hv in Hs. injection Hs as ->. exists s.
    split; [reflexivity|]. split; [exact Hsub|].
    rewrite Hsub. apply encode_ascii_ignore_ascii.
Qed.

Lemma b64encode_empty bs : Base64.b64encode bs = "" -> bs = "".
Proof. destruct bs as [|a [|b [|c rest]]]; [reflexivity | discriminate..]. Qed.

(** X19. From the record to the file. For a media record whose content
    is the base64 encoding of a byte string, [save_media] on the
    constructed message writes those bytes, unless the byte string is
    empty: then the content is falsy, the message has no [content]
    attribute, and [save_media] raises an [AttributeError] after it has
    emptied the file. *)
Theorem record_to_file js d self_id m path fs bs :
  js !! "content" = Some (VStr (Base64.b64encode bs)) ->
  MediaMessage_init js d self_id = Ok m ->
  writable fs (os_path_join path (filename m)) = true ->
  (bs <> "" ->
     (save_media m path fs).1 = Ok tt
     /\ read_file (save_media m path fs).2 (os_path_join path (filename m)) = Ok bs)
  /\ (bs = "" ->
        (save_media m path fs).1 = Raise (AttributeError "content")
        /\ read_file (save_media m path fs).2 (os_path_join path (filename m)) = Ok "").
Proof.
  intros Hc Hm Hw.
  apply MediaMessage_init_inv in Hm as (ext & Hb & _).
  destruct (content_fields_spec _ _ _ (Message_init_content_fields _ _ _ _ Hc Hb))
    as (_ & Hcont & Htext).
  unfold save_media, get_content, read_file. rewrite Hw. split.
  - intros Hbs.
    destruct (content (media_base m)) as [s|] eqn:Hs.
    + destruct (Htext s eq_refl) as [[= <-] _]. cbn [mbind result_bind].
      rewrite Base64Facts.b64decode_b64encode. cbn [fst snd write_file files].
      rewrite lookup_insert_eq. split; reflexivity.
    + assert (Hf : truthy (VStr (Base64.b64encode bs)) = false) by (apply Hcont; reflexivity).
      cbn [truthy] in Hf. apply negb_false_iff, String.eqb_eq, b64encode_empty in Hf.
      contradiction.
  - intros ->. assert (Hnone : content (media_base m) = None) by (apply Hcont; reflexivity).
    rewrite Hnone. cbn [mbind result_bind fst snd write_file files].
    rewrite lookup_insert_eq. split; reflexivity.
Qed.

End Extras.

(** ** The lenient decoder *)
Module Base64Lenient.
Import Base64.

(** The characters the decoder steps over before it looks at the
    table: carriage return, line feed and space. *)
Lemma find_valid_skip c s1 s2 n :
  table_a2b c = None ->
  find_valid (s1 ++ String c s2) n = find_valid (s1 ++ s2) n.
Proof.
  intros Hc. revert n. induction s1 as [|a s1 IH]; intros n.
  - change (find_valid (String c s2) n = find_valid s2 n).
    cbn [find_valid]. rewrite Hc. rewrite andb_false_r. reflexivity.
  - change (find_valid (String a (s1 ++ String c s2)) n
            = find_valid (String a (s1 ++ s2)) n).
    cbn [find_valid]. destruct (_ && _); [destruct n|]; rewrite ?IH; reflexivity.
Qed.

Lemma a2b_loop_skip c s1 s2 q lc lb :
  (code c =? 13) || (code c =? 10) || (code c =? 32) = true ->
  a2b_loop (s1 ++ String c s2) q lc lb = a2b_loop (s1 ++ s2) q lc lb.
Proof.
  intros Hc.
  assert (Htab : table_a2b c = None).
  { unfold table_a2b. cbv zeta.
    destruct (code c =? 13) eqn:H13; [apply Z.eqb_eq in H13; rewrite H13; reflexivity|].
    destruct (code c =? 10) eqn:H10; [apply Z.eqb_eq in H10; rewrite H10; reflexivity|].
    destruct (code c =? 32) eqn:H32; [apply Z.eqb_eq in H32; rewrite H32; reflexivity|].
    discriminate. }
  revert q lc lb. induction s1 as [|a s1 IH]; intros q lc lb.
  - change (a2b_loop (String c s2) q lc lb = a2b_loop s2 q lc lb).
    cbn [a2b_loop]. 
    replace ((code c >? 127) || (code c =? 13) || (code c =? 10) || (code c =? 32))
      with true; [reflexivity|].
    revert Hc. destruct (code c >? 127), (code c =? 13), (code c =? 10),
      (code c =? 32); intros; try reflexivity; discriminate.
  - change (a2b_loop (String a (s1 ++ String c s2)) q lc lb
            = a2b_loop (String a (s1 ++ s2)) q lc lb).
    cbn [a2b_loop].
    change (String a (s1 ++ String c s2)) with (String a s1 ++ String c s2).
    change (String a (s1 ++ s2)) with (String a s1 ++ s2).
    rewrite (find_valid_skip c (String a s1) s2 1 Htab).
    destruct (table_a2b a); rewrite ?IH; reflexivity.
Qed.

Lemma is_ascii_text_skip c s1 s2 :
  (code c <=? 127) = true ->
  is_ascii_text (s1 ++ String c s2) = is_ascii_text (s1 ++ s2).
Proof.
  intros Hc. induction s1 as [|a s1 IH].
  - change (is_ascii_text (String c s2) = is_ascii_text s2).
    unfold is_ascii_text. cbn [list_ascii_of_string forallb]. rewrite Hc. reflexivity.
  - change (is_ascii_text (String a (s1 ++ String c s2))
            = is_ascii_text (String a (s1 ++ s2))).
    unfold is_ascii_text in *. cbn [list_ascii_of_string forallb]. rewrite IH.
    reflexivity.
Qed.

(** Line breaks and spaces in the text do not change what it decodes
    to. *)
Lemma b64decode_skip c s1 s2 :
  (code c =? 13) || (code c =? 10) || (code c =? 32) = true ->
  b64decode (s1 ++ String c s2) = b64decode (s1 ++ s2).
Proof.
  intros Hc. unfold b64decode, a2b_base64.
  rewrite (a2b_loop_skip c s1 s2 0 0 0 Hc), is_ascii_text_skip; [reflexivity|].
  apply orb_prop in Hc as [Hc|Hc]; [apply orb_prop in Hc as [Hc|Hc]|];
    apply Z.eqb_eq in Hc; rewrite Hc; reflexivity.
Qed.

End Base64Lenient.

Section ExtrasB.
Context `{Collaborators}.

(** X20. [save_media] does not see line breaks or spaces in the
    content: two messages with the same file name whose contents differ
    by one such character are saved as the same file, with the same
    outcome. *)
Theorem save_media_skips_whitespace m1 m2 path fs c s1 s2 :
  In c [" "%char; "010"%char; "013"%char] ->
  filename m1 = filename m2 ->
  content (media_base m1) = Some (s1 ++ String c s2) ->
  content (media_base m2) = Some (s1 ++ s2) ->
  save_media m1 path fs = save_media m2 path fs.
Proof.
  intros Hc Hf H1 H2. unfold save_media, get_content.
  rewrite Hf, H1, H2. cbn [mbind result_bind].
  rewrite Base64Lenient.b64decode_skip; [reflexivity|].
  cbn in Hc. destruct Hc as [<-|[<-|[<-|[]]]]; reflexivity.
Qed.
End ExtrasB.

(** The decimal numeral of a number has no space in it, so a text
    that begins with a numeral and a space can be split in one way
    only. *)
Lemma pretty_N_char_no_space x : pretty_N_char x <> " "%char.
Proof. unfold pretty_N_char. repeat case_match; discriminate. Qed.

Lemma pretty_N_go_no_space x s :
  (forall c, In c (list_ascii_of_string s) -> c <> " "%char) ->
  forall c, In c (list_ascii_of_string (pretty_N_go x s)) -> c <> " "%char.
Proof.
  revert s. induction (N.lt_wf_0 x) as [x _ IH]; intros s Hs.
  destruct (decide (x = 0)%N) as [->|Hx]; [rewrite pretty_N_go_0; exact Hs|].
  rewrite pretty_N_go_step by lia. apply IH.
  - apply N.div_lt; lia.
  - intros c [<-|Hc]; [apply pretty_N_char_no_space | apply Hs, Hc].
Qed.

Lemma pretty_nat_no_space (n : nat) c :
  In c (list_ascii_of_string (pretty n)) -> c <> " "%char.
Proof.
  revert c. unfold pretty, pretty_nat, pretty, pretty_N.
  destruct (decide _).
  - intros c [<-|[]]. discriminate.
  - apply pretty_N_go_no_space. intros c [].
Qed.

Lemma no_space_split a b x y :
  (forall c, In c (list_ascii_of_string a) -> c <> " "%char) ->
  (forall c, In c (list_ascii_of_string b) -> c <> " "%char) ->
  a ++ String " " x = b ++ String " " y -> a = b /\ x = y.
Proof.
  revert b. induction a as [|c a IH]; intros [|c' b] Ha Hb Heq.
  - injection Heq as ->. auto.
  - change (String " " x = String c' (b ++ String " " y)) in Heq.
    injection Heq as Hc _. destruct (Hb c'); [left; reflexivity | auto].
  - change (String c (a ++ String " " x) = String " " y) in Heq.
    injection Heq as Hc _. destruct (Ha c); [left; reflexivity | auto].
  - change (String c (a ++ String " " x) = String c' (b ++ String " " y)) in Heq.
    injection Heq as -> Heq.
    destruct (IH b) as [-> ->]; auto.
    + intros z Hz. apply Ha. right. exact Hz.
    + intros z Hz. apply Hb. right. exact Hz.
Qed.

Lemma append_inj_r (p a b : string) : p ++ a = p ++ b -> a = b.
Proof.
  induction p as [|c p IH]; [auto|].
  change (String c (p ++ a) = String c (p ++ b) -> a = b).
  intros [= Heq]. auto.
Qed.

Section GroupFacts.
Context `{Collaborators}.
Context {Chat : Type} (chat_name : Chat -> string).

(** X21. The summary of a group counts its messages and says
    ["message"] for exactly one message, ["messages"] for any other
    number, zero included; and the summary tells the number of messages
    and the safe name of the chat: two groups with the same summary
    agree on both. *)
Theorem MessageGroup_repr_count (c : Chat) (ms : list message) :
  (forall m, ms = [m] ->
     MessageGroup_repr Chat chat_name (MessageGroup_init Chat c ms)
       = "<MessageGroup - 1 message in " ++ safe_str (chat_name c) ++ ">")
  /\ (List.length ms <> 1%nat ->
        MessageGroup_repr Chat chat_name (MessageGroup_init Chat c ms)
          = "<MessageGroup - " ++ pretty (List.length ms) ++ " messages in "
              ++ safe_str (chat_name c) ++ ">")
  /\ (forall c' ms',
        MessageGroup_repr Chat chat_name (MessageGroup_init Chat c ms)
          = MessageGroup_repr Chat chat_name (MessageGroup_init Chat c' ms') ->
        List.length ms = List.length ms'
        /\ safe_str (chat_name c) = safe_str (chat_name c')).
Proof.
  unfold MessageGroup_repr, MessageGroup_init. cbn [messages chat].
  split; [intros m ->; reflexivity|]. split.
  - intros Hn. apply Nat.eqb_neq in Hn. rewrite Hn. reflexivity.
  - intros c' ms' Heq.
    apply append_inj_r in Heq.
    apply no_space_split in Heq as [Hn Heq]; try (intros z; apply pretty_nat_no_space).
    apply (inj pretty) in Hn. split; [exact Hn|].
    rewrite Hn in Heq. apply append_inj_r in Heq.
    change (" in " ++ safe_str (chat_name c) ++ ">")
      with (String " " (String "i" (String "n" (String " " (safe_str (chat_name c) ++ ">"))))) in Heq.
    change (" in " ++ safe_str (chat_name c') ++ ">")
      with (String " " (String "i" (String "n" (String " " (safe_str (chat_name c') ++ ">"))))) in Heq.
    injection Heq as Heq. apply append_inj_l in Heq. exact Heq.
Qed.
End GroupFacts.

(** ** The claims on the sample session *)
Import Sample.
#[local] Existing Instance collaborators.

(** The sample objects are what the classifier builds from the sample
    records, one for each class. *)
Example text_record_classified :
  factory_message text_record book 7 = Ok (AMessage text_message).
Proof. vm_compute. reflexivity. Qed.

Example media_record_classified :
  factory_message (media_record "image/jpeg" "QUJD") book 7
    = Ok (AMediaMessage (picture "QUJD")).
Proof. vm_compute. reflexivity. Qed.

Example mms_record_classified :
  class_of <$> factory_message
                 (<["isMedia" := VBool false]> (media_record "audio/ogg" "QUJD")) book 7
    = Ok ClsMMSMessage.
Proof. vm_compute. reflexivity. Qed.

Example vcard_record_classified :
  class_of <$> factory_message (<["type" := VStr "multi_vcard"]> text_record) book 7
    = Ok ClsVCardMessage.
Proof. vm_compute. reflexivity. Qed.

Example notification_record_classified :
  factory_message (notification_record [VStr "1@c.us"; VStr "2@c.us"]) book 7
    = Ok (ANotificationMessage
            (notice (notification_record [VStr "1@c.us"; VStr "2@c.us"]) "create"
               (Some ["Bob"; "Carol"]))).
Proof. vm_compute. reflexivity. Qed.

Example text_message_formatted :
  Message_repr text_message = Ok "<Message - from Alice at 1500000000: hello...>".
Proof. vm_compute. reflexivity. Qed.

(** The notification is built, with the byte string [b'create'] as
    its subtype, and cannot be formatted. *)
Example notice_not_formatted :
  NotificationMessage_repr
    (notice (notification_record [VStr "1@c.us"; VStr "2@c.us"]) "create"
       (Some ["Bob"; "Carol"]))
    = Raise (KeyError (Bytes "create")).
Proof. vm_compute. reflexivity. Qed.

(** The contacts of a vCard are a byte string, and are formatted as
    one. *)
Example card_formatted :
  VCardMessage_repr card
    = Ok "<VCardMessage - vcard from Alice at 1500000000 (b'BEGIN:VCARD')>".
Proof. vm_compute. reflexivity. Qed.

(** A single quote in the bytes changes the quotes around them; the
    other bytes are escaped as [repr] does. *)
Example bytes_repr_quotes :
  bytes_repr "it's" = String "b" (String "034" ("it's" ++ String "034" ""))
  /\ bytes_repr (String "a" (String "092" (String "b" (String "009" (String "010"
                   (String "013" (String "000" (String "127" "~ "))))))))
     = "b'a\\b\t\n\r\x00\x7f~ '".
Proof. split; vm_compute; reflexivity. Qed.

(** An identifier the driver does not know ends the construction. *)
Example unknown_recipient_raises :
  factory_message (notification_record [VStr "1@c.us"; VStr "9@c.us"]) book 7
    = Raise (Foreign "ContactNotFoundError").
Proof. vm_compute. reflexivity. Qed.

(** Content that is not base64 at all: the file is left empty. *)
Example undecodable_content_truncates :
  save_media (picture "QQ") "/tmp/media" disk
    = (Raise DecodeError, write_file disk "/tmp/media/k3Jd9v.jpe" "").
Proof. vm_compute. reflexivity. Qed.

Lemma factory_message_first_match_witness :
  factory_message (media_record "image/jpeg" "QUJD") book 7 =
    construct (first_match true false true (VStr "image"))
      (media_record "image/jpeg" "QUJD") book 7
  /\ (forall m, factory_message (media_record "image/jpeg" "QUJD") book 7 = Ok m ->
        class_of m = first_match true false true (VStr "image"))
  /\ (true = true ->
        forall m, factory_message (media_record "image/jpeg" "QUJD") book 7 = Ok m ->
          exists x, m = AMediaMessage x).
Proof.
  apply (factory_message_first_match (media_record "image/jpeg" "QUJD") book 7
           (VBool true) (VBool false) (VBool true) (VStr "image"));
    vm_compute; reflexivity.
Defined.

Lemma repr_without_sender_witness :
  sender (message_base (AMessage system_message)) = None
  /\ (class_of (AMessage system_message) <> ClsNotificationMessage ->
        message_repr (AMessage system_message) = Raise (AttributeError "get_safe_name")).
Proof.
  apply (repr_without_sender system_record book 7 (AMessage system_message));
    vm_compute; reflexivity.
Defined.

Lemma NotificationMessage_repr_taxonomy_witness :
  NotificationMessage_init (notification_record []) book
    = Ok (notice (notification_record []) "create" None)
  /\ (VStr "gp2" = VStr "gp2" -> "create" = "create" ->
        NotificationMessage_repr (notice (notification_record []) "create" None)
          = Raise (KeyError (Bytes "create")))
  /\ (hashable (VStr "gp2") = true ->
        exists k,
          NotificationMessage_repr (notice (notification_record []) "create" None)
            = Raise (KeyError k)).
Proof.
  split; [vm_compute; reflexivity|].
  apply (NotificationMessage_repr_taxonomy (notification_record []) book
           (notice (notification_record []) "create" None) (VStr "gp2") "create");
    vm_compute; reflexivity.
Defined.

Lemma MediaMessage_init_unknown_mime_witness :
  MediaMessage_init (media_record "application/x-unknown" "QUJD") book 7
    = Raise TypeError.
Proof.
  apply (MediaMessage_init_unknown_mime
           (media_record "application/x-unknown" "QUJD") book 7
           (message_of (media_record "application/x-unknown" "QUJD")
              (Some "Alice") (Some "QUJD") (Some "QUJD..."))
           (VStr "image") (VInt 3) "application/x-unknown");
    vm_compute; reflexivity.
Defined.

Lemma save_media_roundtrip_witness :
  (save_media (picture "QUJD") "/tmp/media" disk).1 = Ok tt
  /\ read_file (save_media (picture "QUJD") "/tmp/media" disk).2
       (os_path_join "/tmp/media" (filename (picture "QUJD"))) = Ok "ABC"
  /\ reencode (picture "QUJD") "/tmp/media"
       (save_media (picture "QUJD") "/tmp/media" disk).2
     = Ok (Base64.b64encode "ABC").
Proof.
  apply (save_media_roundtrip (picture "QUJD") "/tmp/media" disk "ABC");
    vm_compute; reflexivity.
Defined.

(** C5, as the specification states it, fails: the content ["QR=="]
    is accepted by the decoder, which drops the four bits left over
    after the first byte, and the file encodes to ["QQ=="]. *)
Lemma save_media_roundtrip_counterexample :
  MediaMessage_init (media_record "image/jpeg" "QR==") book 7 = Ok (picture "QR==")
  /\ content (media_base (picture "QR==")) = Some "QR=="
  /\ (save_media (picture "QR==") "/tmp/media" disk).1 = Ok tt
  /\ reencode (picture "QR==") "/tmp/media"
       (save_media (picture "QR==") "/tmp/media" disk).2 = Ok "QQ=="
  /\ reencode (picture "QR==") "/tmp/media"
       (save_media (picture "QR==") "/tmp/media" disk).2 <> Ok "QR==".
Proof.
  repeat split; try (vm_compute; reflexivity).
  vm_compute. discriminate.
Qed.

Lemma preview_truncation_witness :
  safe_content long_message
    = Some (substring 0 25 "AAAAAAAAAAAAAAAAAAAAAAAAAAAAAA" ++ "...")
  /\ forall p, safe_content long_message = Some p -> String.length p = 28%nat.
Proof.
  apply (preview_truncation long_record book long_message);
    vm_compute; reflexivity.
Defined.

Lemma filename_deterministic_witness :
  MediaMessage_init (media_record "image/jpeg" "QUJD") book 7
    = MediaMessage_init (media_record "image/jpeg" "QUJD") book 8
  /\ (exists m,
        MediaMessage_init (media_record "image/jpeg" "QUJD") book 7 = Ok m
        /\ MediaMessage_init (media_record "image/jpeg" "QUJD") book 8 = Ok m
        /\ filename m = "k3Jd9v" ++ ".jpe").
Proof.
  pose proof (filename_deterministic (media_record "image/jpeg" "QUJD") book 7 8
                (VStr "k3Jd9v")) as Hname.
  destruct Hname as (Hsame & _ & Hbuilt); [vm_compute; reflexivity|].
  split; [exact Hsame|].
  apply (Hbuilt (message_of (media_record "image/jpeg" "QUJD") (Some "Alice")
                   (Some "QUJD") (Some "QUJD..."))
           (VStr "image") (VInt 3) "image/jpeg" ".jpe" "k3Jd9v");
    vm_compute; reflexivity.
Defined.

Lemma NotificationMessage_init_recipients_witness :
  (forall cs,
     Forall2 (fun x c => get_contact_from_id book x = Ok c)
       [VStr "1@c.us"; VStr "2@c.us"] cs ->
     exists n,
       NotificationMessage_init (notification_record [VStr "1@c.us"; VStr "2@c.us"]) book
         = Ok n /\
       recipients n = Some cs)
  /\ (forall l1 x l2 cs e,
        [VStr "1@c.us"; VStr "2@c.us"] = (l1 ++ x :: l2)%list ->
        Forall2 (fun x c => get_contact_from_id book x = Ok c) l1 cs ->
        get_contact_from_id book x = Raise e ->
        NotificationMessage_init (notification_record [VStr "1@c.us"; VStr "2@c.us"]) book
          = Raise e)
  /\ (forall n,
        NotificationMessage_init (notification_record [VStr "1@c.us"; VStr "2@c.us"]) book
          = Ok n ->
        (is_Some (recipients n) <-> [VStr "1@c.us"; VStr "2@c.us"] <> [])
        /\ forall cs, recipients n = Some cs ->
             Forall2 (fun x c => get_contact_from_id book x = Ok c)
               [VStr "1@c.us"; VStr "2@c.us"] cs).
Proof.
  apply (NotificationMessage_init_recipients
           (notification_record [VStr "1@c.us"; VStr "2@c.us"]) book
           (message_of (notification_record [VStr "1@c.us"; VStr "2@c.us"])
              None None None)
           (VStr "gp2") "create" [VStr "1@c.us"; VStr "2@c.us"]);
    vm_compute; reflexivity.
Defined.

Lemma falsy_content_repr_raises_witness :
  content empty_message = None /\ safe_content empty_message = None
  /\ exists a, Message_repr empty_message = Raise (AttributeError a).
Proof.
  apply (falsy_content_repr_raises empty_record book empty_message (VStr ""));
    vm_compute; reflexivity.
Defined.

Lemma preview_ellipsis_witness :
  exists s,
    VStr "hello" = VStr s /\
    String.length (substring 0 (Nat.min 25 (String.length s)) s)
      = Nat.min 25 (String.length s) /\
    safe_content text_message =
      Some (safe_str (substring 0 (Nat.min 25 (String.length s)) s) ++ "...").
Proof.
  apply (preview_ellipsis text_record book text_message (VStr "hello"));
    vm_compute; reflexivity.
Defined.

(** ** The further properties on the sample session *)

Lemma factory_message_keys_witness :
  factory_message ∅ book 7 = Raise (KeyError (VStr "isMedia"))
  /\ factory_message bare_record book 7
     = AMediaMessage <$> MediaMessage_init bare_record book 7.
Proof.
  split.
  - apply (proj1 (factory_message_keys ∅ book 7)). reflexivity.
  - apply (proj1 (proj2 (factory_message_keys bare_record book 7)) (VBool true));
      reflexivity.
Defined.

Lemma factory_message_retains_witness :
  js_obj (message_base (AMediaMessage (picture "QUJD"))) = media_record "image/jpeg" "QUJD"
  /\ media_record "image/jpeg" "QUJD" !! "type" = Some (media_type (picture "QUJD"))
  /\ media_record "image/jpeg" "QUJD" !! "size" = Some (size (picture "QUJD"))
  /\ media_record "image/jpeg" "QUJD" !! "mime" = Some (mime (picture "QUJD")).
Proof.
  apply (factory_message_retains (media_record "image/jpeg" "QUJD") book 7
           (AMediaMessage (picture "QUJD"))).
  vm_compute. reflexivity.
Defined.

Lemma sender_marker_witness :
  (sender system_message = None <-> VBool false = VBool false \/ VBool false = VInt 0)
  /\ (forall c, sender system_message = Some c -> Contact_init (VBool false) book = Ok c).
Proof.
  apply (sender_marker system_record book system_message (VBool false));
    vm_compute; reflexivity.
Defined.

Lemma content_attributes_witness :
  (content empty_message = None <-> safe_content empty_message = None)
  /\ (content empty_message = None <-> truthy (VStr "") = false)
  /\ (forall s, content empty_message = Some s -> VStr "" = VStr s /\ s <> "").
Proof.
  apply (content_attributes empty_record book empty_message (VStr ""));
    vm_compute; reflexivity.
Defined.

Lemma required_keys_witness :
  (forall c, exists e, construct c (flags false false false "chat") book 7 = Raise e)
  /\ exists e, factory_message (flags false false false "chat") book 7 = Raise e.
Proof.
  apply (required_keys (flags false false false "chat") book 7 "sender").
  - left. reflexivity.
  - vm_compute. reflexivity.
Defined.

Lemma constructed_Message_repr_witness :
  (exists text, Message_repr text_message = Ok text) <->
  (alice <> VBool false /\ alice <> VInt 0) /\ truthy (VStr "hello") = true.
Proof.
  apply (constructed_Message_repr text_record book text_message alice (VStr "hello"));
    vm_compute; reflexivity.
Defined.

Lemma constructed_repr_needs_sender_witness :
  (exists text, message_repr (AVCardMessage card) = Ok text) <->
  (alice <> VBool false /\ alice <> VInt 0).
Proof.
  apply (constructed_repr_needs_sender vcard_record book 7 ClsVCardMessage
           (AVCardMessage card) alice).
  - right. right. left. reflexivity.
  - vm_compute. reflexivity.
  - vm_compute. reflexivity.
Defined.

Lemma MediaMessage_init_succeeds_witness :
  (exists m, MediaMessage_init (media_record "image/jpeg" "QUJD") book 7 = Ok m) <->
  (exists ext, guess_extension "image/jpeg" = Some ext)
  /\ (forall h, media_record "image/jpeg" "QUJD" !! "__x_filehash" = Some h ->
        exists hash, h = VStr hash).
Proof.
  apply (MediaMessage_init_succeeds (media_record "image/jpeg" "QUJD") book 7
           (message_of (media_record "image/jpeg" "QUJD") (Some "Alice")
              (Some "QUJD") (Some "QUJD..."))
           (VStr "image") (VInt 3) "image/jpeg");
    vm_compute; reflexivity.
Defined.

Lemma fallback_filename_distinct_witness :
  (exists ext, filename (unhashed_picture 7) = pretty 7 ++ ext
               /\ filename (unhashed_picture 8) = pretty 8 ++ ext)
  /\ (7 <> 8 -> filename (unhashed_picture 7) <> filename (unhashed_picture 8)).
Proof.
  apply (fallback_filename_distinct unhashed_record book 7 8
           (unhashed_picture 7) (unhashed_picture 8));
    vm_compute; reflexivity.
Defined.


Lemma save_media_outcome_witness :
  (save_media (picture "QUJD") "/tmp/media" disk).1 = Ok tt
  /\ save_media (picture "QUJD") "/srv/media" disk = (Raise IOError, disk)
  /\ read_file (save_media (picture "QQ") "/tmp/media" disk).2
       (os_path_join "/tmp/media" (filename (picture "QQ"))) = Ok "".
Proof.
  split; [|split].
  - apply (proj1 (save_media_outcome (picture "QUJD") "/tmp/media" disk)).
    split; [vm_compute; reflexivity|].
    exists "QUJD", "ABC". split; vm_compute; reflexivity.
  - apply (proj1 (proj2 (proj2 (save_media_outcome (picture "QUJD") "/srv/media" disk)))).
    vm_compute. reflexivity.
  - apply (proj2 (proj2 (proj2 (save_media_outcome (picture "QQ") "/tmp/media" disk)))
             DecodeError);
      vm_compute; reflexivity.
Defined.

Lemma save_media_absolute_hash_witness :
  (forall path, os_path_join path (filename rooted_picture) = filename rooted_picture)
  /\ (forall path1 path2 fs,
        save_media rooted_picture path1 fs = save_media rooted_picture path2 fs).
Proof.
  apply (save_media_absolute_hash rooted_record book 7 rooted_picture "srv/k3Jd9v");
    vm_compute; reflexivity.
Defined.

Lemma VCardMessage_contacts_witness :
  exists s,
    vcard_record !! "content" = Some (VStr s)
    /\ contacts card = encode_ascii_ignore s
    /\ (forall c, In c (list_ascii_of_string (contacts card)) -> (nat_of_ascii c < 128)%nat)
    /\ (String.length (contacts card) <= String.length s)%nat
    /\ ((forall c, In c (list_ascii_of_string s) -> (nat_of_ascii c < 128)%nat) ->
        contacts card = s).
Proof.
  apply (VCardMessage_contacts vcard_record book card).
  vm_compute. reflexivity.
Defined.

Lemma VCardMessage_init_content_witness :
  ((forall s, VNone <> VStr s) ->
     VCardMessage_init null_card_record book = Raise (AttributeError "encode"))
  /\ (VNone = VStr "" ->
        VCardMessage_init null_card_record book
          = Ok (mkVCardMessage
                  (message_of null_card_record (Some "Alice") None None)
                  (VStr "vcard") "")
        /\ content (message_of null_card_record (Some "Alice") None None) = None).
Proof.
  apply (VCardMessage_init_content null_card_record book
           (message_of null_card_record (Some "Alice") None None)
           (VStr "vcard") VNone);
    vm_compute; reflexivity.
Defined.

Lemma notification_repr_raises_witness :
  (forall text,
     message_repr (ANotificationMessage (notice (notification_record []) "create" None))
       <> Ok text)
  /\ (forall t, VStr "gp2" = VStr t -> In t ["call_log"; "e2e_notification"; "gp2"] ->
        message_repr (ANotificationMessage (notice (notification_record []) "create" None))
          = Raise (KeyError (Bytes (encode_ascii_ignore "create")))).
Proof.
  pose proof (notification_repr_raises (notification_record []) book 7
                (notice (notification_record []) "create" None) (VStr "gp2") "create")
    as Hraises.
  destruct Hraises as (Hnever & _ & _ & Hkey); try (vm_compute; reflexivity).
  split; [exact Hnever | exact Hkey].
Defined.

Lemma NotificationMessage_init_no_recipients_witness :
  (truthy VNone = false ->
     NotificationMessage_init quiet_record book
       = Ok (mkNotificationMessage (message_of quiet_record None None None)
               (VStr "gp2") (encode_ascii_ignore "create") None))
  /\ (forall k, VNone = VInt k -> k <> 0 ->
        NotificationMessage_init quiet_record book = Raise TypeError)
  /\ (VNone = VBool true -> NotificationMessage_init quiet_record book = Raise TypeError).
Proof.
  apply (NotificationMessage_init_no_recipients quiet_record book
           (message_of quiet_record None None None) (VStr "gp2") "create" VNone);
    vm_compute; reflexivity.
Defined.

Lemma NotificationMessage_init_subtype_witness :
  ((forall s, VStr "create" <> VStr s) ->
     NotificationMessage_init quiet_record book = Raise (AttributeError "encode"))
  /\ (forall n, NotificationMessage_init quiet_record book = Ok n ->
        exists s, VStr "create" = VStr s /\ subtype n = encode_ascii_ignore s /\
          (forall c, In c (list_ascii_of_string (subtype n)) ->
             (nat_of_ascii c < 128)%nat)).
Proof.
  apply (NotificationMessage_init_subtype quiet_record book
           (message_of quiet_record None None None) (VStr "gp2") (VStr "create"));
    vm_compute; reflexivity.
Defined.

Lemma record_to_file_witness :
  ("ABC" <> "" ->
     (save_media (picture "QUJD") "/tmp/media" disk).1 = Ok tt
     /\ read_file (save_media (picture "QUJD") "/tmp/media" disk).2
          (os_path_join "/tmp/media" (filename (picture "QUJD"))) = Ok "ABC")
  /\ ("ABC" = "" ->
        (save_media (picture "QUJD") "/tmp/media" disk).1
          = Raise (AttributeError "content")
        /\ read_file (save_media (picture "QUJD") "/tmp/media" disk).2
             (os_path_join "/tmp/media" (filename (picture "QUJD"))) = Ok "").
Proof.
  apply (record_to_file (media_record "image/jpeg" "QUJD") book 7 (picture "QUJD")
           "/tmp/media" disk "ABC");
    vm_compute; reflexivity.
Defined.

Lemma save_media_skips_whitespace_witness :
  save_media (picture ("QU" ++ String "010"%char "JD")) "/tmp/media" disk
    = save_media (picture ("QU" ++ "JD")) "/tmp/media" disk.
Proof.
  apply (save_media_skips_whitespace
           (picture ("QU" ++ String "010"%char "JD")) (picture ("QU" ++ "JD"))
           "/tmp/media" disk "010"%char "QU" "JD").
  - right. left. reflexivity.
  - reflexivity.
  - reflexivity.
  - reflexivity.
Defined.

Lemma MessageGroup_repr_count_witness :
  MessageGroup_repr string (fun c => c)
      (MessageGroup_init string "Family" [AMessage text_message])
    = "<MessageGroup - 1 message in " ++ safe_str "Family" ++ ">"
  /\ MessageGroup_repr string (fun c => c) (MessageGroup_init string "Family" [])
     = "<MessageGroup - 0 messages in " ++ safe_str "Family" ++ ">"
  /\ (List.length [AMessage text_message] = List.length [AMessage empty_message]
       /\ safe_str "Family" = safe_str "Family").
Proof.
  split; [|split].
  - apply (proj1 (MessageGroup_repr_count (fun c : string => c) "Family"
                    [AMessage text_message]) (AMessage text_message)).
    reflexivity.
  - apply (proj1 (proj2 (MessageGroup_repr_count (fun c : string => c) "Family" []))).
    discriminate.
  - apply (proj2 (proj2 (MessageGroup_repr_count (fun c : string => c) "Family"
                           [AMessage text_message])) "Family" [AMessage empty_message]).
    reflexivity.
Defined.
